(** * Landmark enrichment service ([image.py]): a shallow embedding

    The Flask handler [analyze_image] asks three web services about a
    landmark (Wikipedia's page summary, Wikidata's [wbgetentities],
    Nominatim's reverse geocoder) and merges the answers into one record.
    The code walks the decoded JSON with [dict.get] and relies on Python's
    truthiness and on broad [except Exception] handlers, so the embedding
    keeps three things explicit:

    - decoded JSON as an untyped [value];
    - exceptions as an [outcome];
    - the calls made through [requests.get] as a trace collected by a
      small exception-and-trace monad [M].

    Logging, the timeouts and the response cache have no part in what the
    handler returns and are left out; the Vision client is a parameter. *)

From Stdlib Require Import String Ascii List ZArith Bool Lia Permutation.
From Stdlib Require Import DecimalString.
Import ListNotations.
Open Scope string_scope.
Open Scope Z_scope.

Set Implicit Arguments.
Set Warnings "-register-all".

(** ** Python values *)

(** What [json.loads] produces, plus the floats of the Vision API.  A float
    is carried by its [repr] (the text [str] and an f-string produce for
    it); a dict is the list of its items in insertion order. *)
Inductive value : Type :=
| VNone
| VBool (b : bool)
| VInt (z : Z)
| VFloat (repr : string)
| VStr (s : string)
| VList (l : list value)
| VDict (d : list (string * value)).

(** The exceptions the modelled operations raise.  Every handler in the
    source is [except Exception], which catches all of them. *)
Inductive exn : Type :=
| AttributeError
| TypeError
| KeyError
| IndexError
| RequestException
| JSONDecodeError
| VisionError.

Inductive outcome (A : Type) : Type :=
| Ok (a : A)
| Raise (e : exn).
Arguments Ok {A} a.
Arguments Raise {A} e.

Definition obind {A B} (o : outcome A) (k : A -> outcome B) : outcome B :=
  match o with
  | Ok a => k a
  | Raise e => Raise e
  end.

Declare Scope outcome_scope.
Delimit Scope outcome_scope with outcome.
Notation "x <~ o ;; k" := (obind o (fun x => k))
  (at level 61, o at next level, right associativity) : outcome_scope.

(** [try: body / except Exception: return dflt] around a pure body. *)
Definition or_default {A} (o : outcome A) (dflt : A) : A :=
  match o with
  | Ok a => a
  | Raise _ => dflt
  end.

Fixpoint mapM {A B} (f : A -> outcome B) (l : list A) : outcome (list B) :=
  match l with
  | [] => Ok []
  | a :: l' =>
      match f a with
      | Raise e => Raise e
      | Ok b =>
          match mapM f l' with
          | Raise e => Raise e
          | Ok bs => Ok (b :: bs)
          end
      end
  end.

(** *** Truthiness, [or], [str] *)

Definition str_nonempty (s : string) : bool :=
  match s with
  | EmptyString => false
  | String _ _ => true
  end.

Definition list_nonempty {A} (l : list A) : bool :=
  match l with
  | [] => false
  | _ :: _ => true
  end.

(** [bool(v)]: [None], [False], zero, and the empty string, list and dict
    are false. *)
Definition truthy (v : value) : bool :=
  match v with
  | VNone => false
  | VBool b => b
  | VInt z => negb (z =? 0)
  | VFloat r => negb (String.eqb r "0.0" || String.eqb r "-0.0")
  | VStr s => str_nonempty s
  | VList l => list_nonempty l
  | VDict d => list_nonempty d
  end.

(** [a or b] with [b] already evaluated (used where [b] cannot raise). *)
Definition py_or (a b : value) : value :=
  if truthy a then a else b.

Definition str_of_Z (z : Z) : string :=
  NilZero.string_of_int (Z.to_int z).

(** [str(v)], as an f-string applies it.  The text Python prints for a list
    or a dict is not modelled: [repr_container] stands for it. *)
Definition py_str (repr_container : value -> string) (v : value) : string :=
  match v with
  | VNone => "None"
  | VBool true => "True"
  | VBool false => "False"
  | VInt z => str_of_Z z
  | VFloat r => r
  | VStr s => s
  | VList _ | VDict _ => repr_container v
  end.

(** *** Dicts *)

Fixpoint dict_get (d : list (string * value)) (k : string) : option value :=
  match d with
  | [] => None
  | (k', v) :: d' => if String.eqb k' k then Some v else dict_get d' k
  end.

(** [d[k] = v]: an existing key keeps its place, a new one goes last. *)
Fixpoint dict_set (d : list (string * value)) (k : string) (v : value)
  : list (string * value) :=
  match d with
  | [] => [(k, v)]
  | (k', v') :: d' =>
      if String.eqb k' k then (k', v) :: d' else (k', v') :: dict_set d' k v
  end.

(** [{**d1, **d2}]. *)
Definition dict_update (d1 d2 : list (string * value)) : list (string * value) :=
  fold_left (fun d kv => dict_set d (fst kv) (snd kv)) d2 d1.

(** [v.get(k, dflt)]: only a dict has [get]. *)
Definition py_get (v : value) (k : string) (dflt : value) : outcome value :=
  match v with
  | VDict d =>
      match dict_get d k with
      | Some x => Ok x
      | None => Ok dflt
      end
  | _ => Raise AttributeError
  end.

(** [hash(v)] succeeds: lists and dicts are unhashable. *)
Definition hashable (v : value) : bool :=
  match v with
  | VList _ | VDict _ => false
  | _ => true
  end.

(** [v.get(key, dflt)] with a computed key.  The keys of a decoded JSON
    object are strings, so a key that is not a string is never found. *)
Definition py_get_key (v key dflt : value) : outcome value :=
  match v with
  | VDict d =>
      match key with
      | VStr k => py_get v k dflt
      | _ => if hashable key then Ok dflt else Raise TypeError
      end
  | _ => Raise AttributeError
  end.

(** [v.items()]. *)
Definition py_items (v : value) : outcome (list (string * value)) :=
  match v with
  | VDict d => Ok d
  | _ => Raise AttributeError
  end.

Definition chars_of (s : string) : list value :=
  map (fun c => VStr (String c EmptyString)) (list_ascii_of_string s).

(** [for c in v]: a list yields its elements, a dict its keys, a string its
    characters; nothing else is iterable. *)
Definition py_iter (v : value) : outcome (list value) :=
  match v with
  | VList l => Ok l
  | VDict d => Ok (map (fun kv => VStr (fst kv)) d)
  | VStr s => Ok (chars_of s)
  | _ => Raise TypeError
  end.

(** [v[0]]. *)
Definition py_first (v : value) : outcome value :=
  match v with
  | VList (x :: _) => Ok x
  | VList [] => Raise IndexError
  | VStr (String c _) => Ok (VStr (String c EmptyString))
  | VStr EmptyString => Raise IndexError
  | VDict _ => Raise KeyError
  | _ => Raise TypeError
  end.

(** *** Strings *)

(** [s.lstrip("+")]: every leading ["+"] goes. *)
Fixpoint lstrip_plus (s : string) : string :=
  match s with
  | String "+"%char s' => lstrip_plus s'
  | _ => s
  end.

(** [s.split("T")[0]]: the text before the first ["T"]. *)
Fixpoint before_T (s : string) : string :=
  match s with
  | EmptyString => EmptyString
  | String "T"%char _ => EmptyString
  | String c s' => String c (before_T s')
  end.

(** ["|".join(l)]: every element must be a [str]. *)
Definition as_str (v : value) : outcome string :=
  match v with
  | VStr s => Ok s
  | _ => Raise TypeError
  end.

Definition pipe_join (l : list value) : outcome string :=
  match mapM as_str l with
  | Ok ss => Ok (String.concat "|" ss)
  | Raise e => Raise e
  end.

(** [urllib.parse.quote(s)] on the UTF-8 bytes of [s]: letters, digits and
    [_.-~/] stay, every other byte becomes [%XX]. *)
Definition hex_digit (n : N) : ascii :=
  if (n <? 10)%N then ascii_of_N (48 + n) else ascii_of_N (55 + n).

Definition quote_safe (c : ascii) : bool :=
  let n := N_of_ascii c in
  ((65 <=? n) && (n <=? 90) || (97 <=? n) && (n <=? 122)
   || (48 <=? n) && (n <=? 57)
   || (n =? 95) || (n =? 46) || (n =? 45) || (n =? 126) || (n =? 47))%N.

Fixpoint quote (s : string) : string :=
  match s with
  | EmptyString => EmptyString
  | String c s' =>
      if quote_safe c then String c (quote s')
      else let n := N_of_ascii c in
           String "%"%char
             (String (hex_digit (n / 16)) (String (hex_digit (n mod 16)) (quote s')))
  end.

(** ** The world outside the process *)

(** A call of [requests.get(url, params=..., headers=...)].  The timeout
    argument is left out: a call that times out raises. *)
Record request : Type := {
  url : string;
  params : list (string * value);
  headers : list (string * string)
}.

(** What [requests.get] hands back: [status_code] and the result of
    calling [.json()], which raises on a body that is not JSON. *)
Record response : Type := {
  status_code : Z;
  json : outcome value
}.

(** The Vision API's landmark annotations; a float is carried by its
    [repr].  [lat_lng] is [None] where the source's [if loc.lat_lng] is
    false. *)
Record LatLng : Type := {
  latitude : string;
  longitude : string
}.

Record LocationInfo : Type := {
  lat_lng : option LatLng
}.

Record EntityAnnotation : Type := {
  description : string;
  locations : list LocationInfo
}.

(** Everything the handler does not decide itself.
    - [http_get]: the answer of the network to a request, or the exception
      [requests.get] raises;
    - [set_iter]: the order in which [set(l)] is iterated, which Python
      leaves unspecified ([str] hashes are salted per process);
    - [repr_container]: the text of [str] of a list or dict;
    - [landmark_detection]: the Vision client. *)
Record runtime : Type := {
  http_get : request -> outcome response;
  set_iter : list value -> list value;
  repr_container : value -> string;
  landmark_detection : string -> outcome (list EntityAnnotation)
}.

(** ** The monad of the handler: exceptions, and the requests made *)

(** The answers of the network are fixed for the run that is modelled:
    [http_get] is a function of the request (line 15 puts a cache in front
    of [requests], which makes this true of the successful answers for an
    hour).  What a computation adds to the world is the list of calls it
    made, in order. *)
Definition trace : Type := list request.

Definition M (A : Type) : Type := (outcome A * trace)%type.

Definition ret {A} (a : A) : M A := (Ok a, []).

Definition lift {A} (o : outcome A) : M A := (o, []).

Definition bind {A B} (m : M A) (k : A -> M B) : M B :=
  match m with
  | (Ok a, t) => let (o, t') := k a in (o, (t ++ t')%list)
  | (Raise e, t) => (Raise e, t)
  end.

(** [try: body / except Exception: handler]; the requests made before
    the exception stay made. *)
Definition try_except {A} (body : M A) (handler : exn -> M A) : M A :=
  match body with
  | (Ok a, t) => (Ok a, t)
  | (Raise e, t) => let (o, t') := handler e in (o, (t ++ t')%list)
  end.

Declare Scope py_scope.
Delimit Scope py_scope with py.
Notation "x <- m ;; k" := (bind m (fun x => k))
  (at level 61, m at next level, right associativity) : py_scope.
Notation "x <~ o ;; k" := (bind (lift o) (fun x => k))
  (at level 61, o at next level, right associativity) : py_scope.

(** ** The service *)

Definition wikidata_api : string := "https://www.wikidata.org/w/api.php".

Definition no_description : string := "No description available".

Section Service.

Variable rt : runtime.

(** [requests.get(...)]: the call is recorded, then answers or raises. *)
Definition requests_get (req : request) : M response :=
  (http_get rt req, [req]).

(** Line 61, after [claims[0]]. *)
Definition claim_value (c : value) : outcome value :=
  (mainsnak <~ py_get c "mainsnak" (VDict []) ;;
   datavalue <~ py_get mainsnak "datavalue" (VDict []) ;;
   py_get datavalue "value" VNone)%outcome.

(** [extract_claim_value(claims, is_url)], lines 56-68.  A ["time"] that
    is not a [str] has no [lstrip]. *)
Definition extract_claim_value (claims : value) (is_url : bool) : value :=
  if negb (truthy claims) then VNone
  else
    or_default
      (c <~ py_first claims ;;
       v <~ claim_value c ;;
       if is_url then Ok v
       else
         match v with
         | VDict d =>
             match dict_get d "time" with
             | Some (VStr s) => Ok (VStr (before_T (lstrip_plus s)))
             | Some _ => Raise AttributeError
             | None => Ok v
             end
         | _ => Ok v
         end)%outcome
      VNone.

(** The element of the comprehension on line 75. *)
Definition claim_entity_id (c : value) : outcome value :=
  (mainsnak <~ py_get c "mainsnak" (VDict []) ;;
   datavalue <~ py_get mainsnak "datavalue" (VDict []) ;;
   v <~ py_get datavalue "value" (VDict []) ;;
   py_get v "id" VNone)%outcome.

(** [set(l)], iterated: building the set hashes every element. *)
Definition py_set (l : list value) : outcome (list value) :=
  if forallb hashable l then Ok (set_iter rt l) else Raise TypeError.

(** Lines 75-76: the value of [entity_ids] after both assignments. *)
Definition entity_ids (claims : value) : outcome (list value) :=
  (cs <~ py_iter claims ;;
   ids <~ mapM claim_entity_id cs ;;
   s <~ py_set ids ;;
   Ok (filter truthy s))%outcome.

Definition labels_request (ids : string) : request :=
  {| url := wikidata_api;
     params := [("action", VStr "wbgetentities"); ("ids", VStr ids);
                ("format", VStr "json"); ("props", VStr "labels");
                ("languages", VStr "en")];
     headers := [] |}.

(** The right-hand side of line 95. *)
Definition entity_label (qid : string) (data : value) : outcome value :=
  (labels <~ py_get data "labels" (VDict []) ;;
   en <~ py_get labels "en" (VDict []) ;;
   py_get en "value" (VStr qid))%outcome.

(** The loop of lines 93-95, from the dict [labels] built so far. *)
Fixpoint build_labels (items : list (string * value))
    (labels : list (string * value)) : outcome (list (string * value)) :=
  match items with
  | [] => Ok labels
  | (qid, data) :: rest =>
      match entity_label qid data with
      | Ok l => build_labels rest (dict_set labels qid l)
      | Raise e => Raise e
      end
  end.

(** [extract_entity_labels(claims)], lines 70-99.  Lines 75-76 are outside
    the [try], so what they raise reaches the caller. *)
Definition extract_entity_labels (claims : value) : M value :=
  (if negb (truthy claims) then ret (VList [])
   else
     ids <~ entity_ids claims ;;
     if negb (list_nonempty ids) then ret (VList [])
     else
       try_except
         (joined <~ pipe_join ids ;;
          resp <- requests_get (labels_request joined) ;;
          if negb (status_code resp =? 200) then ret (VList [])
          else
            body <~ json resp ;;
            entities <~ py_get body "entities" (VDict []) ;;
            items <~ py_items entities ;;
            labels <~ build_labels items [] ;;
            out <~ mapM (fun eid => py_get_key (VDict labels) eid eid) ids ;;
            ret (VList out))
         (fun _ => ret (VList [])))%py.

Definition entity_request (wikidata_id : value) : request :=
  {| url := wikidata_api;
     params := [("action", VStr "wbgetentities"); ("ids", wikidata_id);
                ("format", VStr "json");
                ("props", VStr "claims|descriptions|labels");
                ("languages", VStr "en")];
     headers := [] |}.

(** [get_wikidata_info(wikidata_id)], lines 21-54. *)
Definition get_wikidata_info (wikidata_id : value) : M value :=
  (if negb (truthy wikidata_id) then ret (VDict [])
   else
     try_except
       (resp <- requests_get (entity_request wikidata_id) ;;
        if negb (status_code resp =? 200) then ret (VDict [])
        else
          body <~ json resp ;;
          entities <~ py_get body "entities" (VDict []) ;;
          entity_data <~ py_get_key entities wikidata_id (VDict []) ;;
          claims <~ py_get entity_data "claims" (VDict []) ;;
          descriptions <~ py_get entity_data "descriptions" (VDict []) ;;
          en <~ py_get descriptions "en" (VDict []) ;;
          desc <~ py_get en "value" (VStr EmptyString) ;;
          p571 <~ py_get claims "P571" (VList []) ;;
          p149 <~ py_get claims "P149" (VList []) ;;
          styles <- extract_entity_labels p149 ;;
          p17 <~ py_get claims "P17" (VList []) ;;
          country <- extract_entity_labels p17 ;;
          p856 <~ py_get claims "P856" (VList []) ;;
          ret (VDict [("description", desc);
                      ("inception_date", extract_claim_value p571 false);
                      ("architectural_styles", styles);
                      ("country", country);
                      ("official_website", extract_claim_value p856 true)]))
       (fun _ => ret (VDict [])))%py.

Definition geocode_request (lat lon : value) : request :=
  {| url := "https://nominatim.openstreetmap.org/reverse?format=json&lat="
            ++ py_str (repr_container rt) lat ++ "&lon="
            ++ py_str (repr_container rt) lon;
     params := [];
     headers := [("User-Agent",
                  "LandmarkInfoService/1.0 (contact@example.com)")] |}.

(** [get_location_details(latitude, longitude)], lines 101-115. *)
Definition get_location_details (lat lon : value) : M value :=
  (try_except
     (resp <- requests_get (geocode_request lat lon) ;;
      if status_code resp =? 200 then
        body <~ json resp ;;
        address <~ py_get body "address" (VDict []) ;;
        country <~ py_get address "country" VNone ;;
        city <~ py_get address "city" VNone ;;
        town <~ py_get address "town" VNone ;;
        village <~ py_get address "village" VNone ;;
        ret (VDict [("country", country);
                    ("city", py_or city (py_or town village))])
      else ret (VDict []))
     (fun _ => ret (VDict [])))%py.

End Service.

(** ** The handler *)

(** What the handler answers: a status with a JSON body, or, from the
    outermost [except], status 500 with [{"error": str(e)}]. *)
Inductive reply : Type :=
| Reply (status : Z) (body : value)
| ServerError (e : exn).

Section Handler.

Variable rt : runtime.

Definition summary_request (name : string) : request :=
  {| url := "https://en.wikipedia.org/api/rest_v1/page/summary/" ++ quote name;
     params := [];
     headers := [] |}.

(** Lines 138-147: [wiki_data] after the [try]. *)
Definition fetch_wiki_data (name : string) : M value :=
  (try_except
     (resp <- requests_get rt (summary_request name) ;;
      if status_code resp =? 200 then
        body <~ json resp ;;
        ret body
      else ret (VDict []))
     (fun _ => ret (VDict [])))%py.

(** Lines 134-135: the candidates that carry coordinates. *)
Definition candidate_locations (landmark : EntityAnnotation) : list LatLng :=
  flat_map (fun loc => match lat_lng loc with
                       | Some ll => [ll]
                       | None => []
                       end) (locations landmark).

Definition location_dict (loc : LatLng) : value :=
  VDict [("latitude", VFloat (latitude loc));
         ("longitude", VFloat (longitude loc))].

Definition maps_link (loc : LatLng) : string :=
  "https://maps.google.com/?q=" ++ latitude loc ++ "," ++ longitude loc.

(** Lines 154-162: [location_details]. *)
Definition location_details_of (locs : list LatLng) : M value :=
  (match locs with
   | [] => ret (VDict [])
   | loc :: _ =>
       geo <- get_location_details rt (VFloat (latitude loc))
                                      (VFloat (longitude loc)) ;;
       fragment <~ py_items geo ;;
       ret (VDict (dict_set
                     (dict_update [("coordinates", location_dict loc)] fragment)
                     "maps_link" (VStr (maps_link loc))))
   end)%py.

(** Line 167. *)
Definition description_of (wikidata_info wiki_data : value) : outcome value :=
  (d <~ py_get wikidata_info "description" VNone ;;
   if truthy d then Ok d
   else
     e <~ py_get wiki_data "extract" VNone ;;
     Ok (py_or e (VStr no_description)))%outcome.

(** Line 177. *)
Definition wikidata_reference (wikidata_id : value) : value :=
  if truthy wikidata_id
  then VStr ("https://www.wikidata.org/wiki/"
             ++ py_str (repr_container rt) wikidata_id)
  else VNone.

(** Lines 165-180: the dict [result]. *)
Definition build_result (name : string)
    (wiki_data wikidata_id wikidata_info location_details : value)
  : outcome value :=
  (desc <~ description_of wikidata_info wiki_data ;;
   inception <~ py_get wikidata_info "inception_date" VNone ;;
   styles <~ py_get wikidata_info "architectural_styles" VNone ;;
   significance <~ py_get wiki_data "description" VNone ;;
   website <~ py_get wikidata_info "official_website" VNone ;;
   content_urls <~ py_get wiki_data "content_urls" (VDict []) ;;
   desktop <~ py_get content_urls "desktop" (VDict []) ;;
   page <~ py_get desktop "page" VNone ;;
   google_maps <~ py_get location_details "maps_link" VNone ;;
   Ok (VDict
         [("name", VStr name);
          ("description", desc);
          ("historical_context",
           VDict [("inception_date", inception);
                  ("architectural_styles", styles);
                  ("significance", significance)]);
          ("location", location_details);
          ("official_website", website);
          ("references",
           VDict [("wikipedia", page);
                  ("wikidata", wikidata_reference wikidata_id);
                  ("google_maps", google_maps)])]))%outcome.

(** Lines 132-180: from the first landmark to [result]. *)
Definition enrich (landmark : EntityAnnotation) : M value :=
  (let landmark_name := description landmark in
   let locs := candidate_locations landmark in
   wiki_data <- fetch_wiki_data landmark_name ;;
   wikidata_id <~ py_get wiki_data "wikibase_item" VNone ;;
   wikidata_info <- (if truthy wikidata_id
                     then get_wikidata_info rt wikidata_id
                     else ret (VDict [])) ;;
   location_details <- location_details_of locs ;;
   result <~ build_result landmark_name wiki_data wikidata_id wikidata_info
                          location_details ;;
   ret result)%py.

(** The values the local variables of [analyze_image] take for a landmark
    name: [wiki_data] (line 145), [wikidata_id] (line 150) and
    [wikidata_info] (line 151).  [v.get(k)] on a dict is [looked_up]. *)
Definition looked_up (v : value) (k : string) : value :=
  or_default (py_get v k VNone) VNone.

Definition wiki_data_of (name : string) : value :=
  or_default (fst (fetch_wiki_data name)) (VDict []).

Definition wikidata_id_of (name : string) : value :=
  looked_up (wiki_data_of name) "wikibase_item".

Definition wikidata_info_of (name : string) : value :=
  if truthy (wikidata_id_of name)
  then or_default (fst (get_wikidata_info rt (wikidata_id_of name))) (VDict [])
  else VDict [].

Definition error_body (msg : string) : value :=
  VDict [("error", VStr msg)].

(** [analyze_image()], lines 117-186; [image] is the uploaded file's
    content, [None] when the form has no ['image'] part. *)
Definition analyze_image (image : option string) : reply * trace :=
  match image with
  | None => (Reply 400 (error_body "No image file provided"), [])
  | Some content =>
      match landmark_detection rt content with
      | Raise e => (ServerError e, [])
      | Ok [] => (Reply 404 (error_body "No landmarks detected"), [])
      | Ok (landmark :: _) =>
          match enrich landmark with
          | (Ok result, t) => (Reply 200 result, t)
          | (Raise e, t) => (ServerError e, t)
          end
      end
  end.

End Handler.

(** Reading the output record. *)
Definition field (v : value) (k : string) : option value :=
  match v with
  | VDict d => dict_get d k
  | _ => None
  end.

Definition field2 (v : value) (k1 k2 : string) : option value :=
  match field v k1 with
  | Some v1 => field v1 k2
  | None => None
  end.

(** ** Iteration orders of a set *)

(** On strings and [None], equality of Python values is equality of the
    terms; the order in which a set of them is iterated is any order. *)
Definition str_or_none (v : value) : Prop :=
  v = VNone \/ exists s, v = VStr s.

Definition set_iter_ok (rt : runtime) : Prop :=
  forall l, Forall str_or_none l ->
    NoDup (set_iter rt l) /\ (forall v, In v (set_iter rt l) <-> In v l).

Definition simple_eqb (a b : value) : bool :=
  match a, b with
  | VNone, VNone => true
  | VStr s, VStr s' => String.eqb s s'
  | _, _ => false
  end.

(** The distinct elements in the order of their first occurrence. *)
Fixpoint first_occurrences (l : list value) : list value :=
  match l with
  | [] => []
  | x :: l' => x :: filter (fun y => negb (simple_eqb x y)) (first_occurrences l')
  end.

(** ** A scenario: the Eiffel Tower *)

Module Scenario.

Definition snak (v : value) : value :=
  VDict [("mainsnak",
          VDict [("snaktype", VStr "value");
                 ("datavalue", VDict [("value", v)])])].

Definition item_claim (qid : string) : value :=
  snak (VDict [("entity-type", VStr "item"); ("id", VStr qid)]).

Definition time_claim (t : string) : value :=
  snak (VDict [("time", VStr t); ("precision", VInt 11)]).

Definition label_entry (qid label : string) : string * value :=
  (qid, VDict [("labels",
                VDict [("en", VDict [("language", VStr "en");
                                     ("value", VStr label)])])]).

Definition website_claim : value :=
  snak (VStr "https://www.toureiffel.paris").

(** The claims of "architectural style": Q1, Q2 and Q1 again. *)
Definition style_claims : list value :=
  [item_claim "Q1"; item_claim "Q2"; item_claim "Q1"].

Definition eiffel_summary : value :=
  VDict [("title", VStr "Eiffel Tower");
         ("description", VStr "Tower in Paris, France");
         ("extract", VStr "The Eiffel Tower is a wrought-iron lattice tower.");
         ("wikibase_item", VStr "Q243");
         ("content_urls",
          VDict [("desktop",
                  VDict [("page",
                          VStr "https://en.wikipedia.org/wiki/Eiffel_Tower")])])].

Definition eiffel_entity : value :=
  VDict [("entities",
          VDict [("Q243",
                  VDict [("descriptions",
                          VDict [("en", VDict [("value", VStr "tower in Paris")])]);
                         ("claims",
                          VDict [("P571", VList [time_claim "+1889-03-31T00:00:00Z"]);
                                 ("P149", VList style_claims);
                                 ("P17", VList [item_claim "Q142"]);
                                 ("P856", VList [website_claim])])])])].

(** Q2 comes back without an English label, Q1 with one. *)
Definition label_items : list (string * value) :=
  [label_entry "Q1" "structural expressionism";
   ("Q2", VDict [("labels", VDict [])]);
   label_entry "Q142" "France"].

Definition label_entities : value :=
  VDict [("entities", VDict label_items)].


Definition paris_address : value :=
  VDict [("address", VDict [("town", VStr "Paris"); ("country", VStr "France")])].

Definition is_prefix (p s : string) : bool :=
  String.eqb (substring 0 (String.length p) s) p.

Definition answer (status : Z) (body : value) : outcome response :=
  Ok {| status_code := status; json := Ok body |}.

(** A healthy network. *)
Definition web (req : request) : outcome response :=
  if is_prefix "https://en.wikipedia.org/" (url req) then answer 200 eiffel_summary
  else if is_prefix "https://nominatim.openstreetmap.org/" (url req)
       then answer 200 paris_address
  else match dict_get (params req) "props" with
       | Some (VStr "labels") => answer 200 label_entities
       | _ => answer 200 eiffel_entity
       end.

Definition eiffel : EntityAnnotation :=
  {| description := "Eiffel Tower";
     locations := [ {| lat_lng := Some {| latitude := "48.8584";
                                          longitude := "2.2945" |} |} ] |}.

(** The Eiffel Tower as a detection without coordinates. *)
Definition eiffel_unplaced : EntityAnnotation :=
  {| description := "Eiffel Tower"; locations := [] |}.

Definition detector (content : string) : outcome (list EntityAnnotation) :=
  if String.eqb content "unplaced" then Ok [eiffel_unplaced] else Ok [eiffel].

(** A service that answers 503 with a body that is not JSON. *)
Definition unavailable : outcome response :=
  Ok {| status_code := 503; json := Raise JSONDecodeError |}.

Definition web_without (down : request -> bool) (req : request)
  : outcome response :=
  if down req then unavailable else web req.

Definition is_wikipedia (req : request) : bool :=
  is_prefix "https://en.wikipedia.org/" (url req).

Definition is_nominatim (req : request) : bool :=
  is_prefix "https://nominatim.openstreetmap.org/" (url req).

Definition is_wikidata (req : request) : bool :=
  String.eqb (url req) wikidata_api.

(** Two runtimes that differ in the order of set iteration only. *)
Definition python_a : runtime :=
  {| http_get := web;
     set_iter := first_occurrences;
     repr_container := fun _ => EmptyString;
     landmark_detection := detector |}.


Definition with_web (w : request -> outcome response) : runtime :=
  {| http_get := w;
     set_iter := first_occurrences;
     repr_container := fun _ => EmptyString;
     landmark_detection := detector |}.

Definition wikipedia_down : runtime := with_web (web_without is_wikipedia).
Definition nominatim_down : runtime := with_web (web_without is_nominatim).
Definition wikidata_down : runtime := with_web (web_without is_wikidata).

(** The body of a reply, when it has one. *)
Definition record_of (r : reply * trace) : value :=
  match fst r with
  | Reply _ body => body
  | ServerError _ => VNone
  end.

(** What the entity fetch returns for an identifier the knowledge graph
    has nothing on. *)
Definition unknown_entity_info : value :=
  Eval vm_compute in or_default (fst (get_wikidata_info python_a (VStr "Q0"))) VNone.

Definition eiffel_record : value :=
  Eval vm_compute in record_of (analyze_image python_a (Some "photo")).

Definition eiffel_unplaced_record : value :=
  Eval vm_compute in record_of (analyze_image python_a (Some "unplaced")).

Definition eiffel_record_wikipedia_down : value :=
  Eval vm_compute in record_of (analyze_image wikipedia_down (Some "photo")).

Definition eiffel_record_nominatim_down : value :=
  Eval vm_compute in record_of (analyze_image nominatim_down (Some "photo")).

Definition eiffel_record_wikidata_down : value :=
  Eval vm_compute in record_of (analyze_image wikidata_down (Some "photo")).

End Scenario.

(** ** Further cases *)

Module Cases.

(** A network described by its four answers: to the summary request, to
    the entity request, to a label request and to the geocoder. *)
Definition world (summary entity labels address : outcome response)
    (req : request) : outcome response :=
  if Scenario.is_wikipedia req then summary
  else if Scenario.is_nominatim req then address
  else match dict_get (params req) "props" with
       | Some (VStr "labels") => labels
       | _ => entity
       end.

Definition entity_with (claims : list (string * value)) : outcome response :=
  Scenario.answer 200
    (VDict [("entities", VDict [("Q243", VDict [("claims", VDict claims)])])]).

(** A claim whose value is a plain string, not an entity reference. *)
Definition string_claim : value := Scenario.snak (VStr "wrought iron").

(** A claim whose entity identifier is a number. *)
Definition numeric_claim : value :=
  Scenario.snak (VDict [("entity-type", VStr "item"); ("id", VInt 42)]).

(** A claim without a value ("unknown value" in Wikidata). *)
Definition valueless_claim : value :=
  VDict [("mainsnak", VDict [("snaktype", VStr "somevalue")])].

Definition healthy_labels : outcome response :=
  Scenario.answer 200 Scenario.label_entities.

Definition healthy_summary : outcome response :=
  Scenario.answer 200 Scenario.eiffel_summary.

Definition healthy_address : outcome response :=
  Scenario.answer 200 Scenario.paris_address.

(** The styles of the entity hold one claim that is not a reference. *)
Definition with_string_claim : runtime :=
  Scenario.with_web
    (world healthy_summary
       (entity_with [("P149", VList [Scenario.item_claim "Q1"; string_claim])])
       healthy_labels healthy_address).

(** The label response holds an entry whose ["labels"] is not a dict. *)
Definition broken_label_items : list (string * value) :=
  [Scenario.label_entry "Q1" "structural expressionism";
   ("Q2", VDict [("labels", VStr "none")])].

Definition with_broken_labels : runtime :=
  Scenario.with_web
    (world healthy_summary (Scenario.answer 200 Scenario.eiffel_entity)
       (Scenario.answer 200 (VDict [("entities", VDict broken_label_items)]))
       healthy_address).

(** The summary has no [wikibase_item]. *)
Definition plain_summary : value :=
  VDict [("extract", VStr "A tower.");
         ("content_urls",
          VDict [("desktop", VDict [("page", VStr "https://example.org/t")])])].

Definition without_item : runtime :=
  Scenario.with_web
    (world (Scenario.answer 200 plain_summary)
       (Scenario.answer 200 Scenario.eiffel_entity) healthy_labels healthy_address).

(** The summary is JSON, but a list. *)
Definition with_list_summary : runtime :=
  Scenario.with_web
    (world (Scenario.answer 200 (VList []))
       (Scenario.answer 200 Scenario.eiffel_entity) healthy_labels healthy_address).

(** The summary's [content_urls] is [null]. *)
Definition null_urls_summary : list (string * value) :=
  [("extract", VStr "A tower."); ("wikibase_item", VStr "Q243");
   ("content_urls", VNone)].

Definition with_null_urls : runtime :=
  Scenario.with_web
    (world (Scenario.answer 200 (VDict null_urls_summary))
       (Scenario.answer 200 Scenario.eiffel_entity) healthy_labels healthy_address).



(** The entity request is answered, the label requests are not. *)
Definition labels_down : runtime :=
  Scenario.with_web
    (world healthy_summary (Scenario.answer 200 Scenario.eiffel_entity)
       Scenario.unavailable healthy_address).

(** The record and the claims of Q243 in [Scenario.eiffel_entity]. *)
Definition eiffel_claims : list (string * value) :=
  [("P571", VList [Scenario.time_claim "+1889-03-31T00:00:00Z"]);
   ("P149", VList Scenario.style_claims);
   ("P17", VList [Scenario.item_claim "Q142"]);
   ("P856", VList [Scenario.website_claim])].

Definition eiffel_entity_data : value :=
  VDict [("descriptions", VDict [("en", VDict [("value", VStr "tower in Paris")])]);
         ("claims", VDict eiffel_claims)].

(** The same two references, in the two orders. *)
Definition pair_claims : list value :=
  [Scenario.item_claim "Q1"; Scenario.item_claim "Q142"].

Definition pair_claims_reversed : list value :=
  [Scenario.item_claim "Q142"; Scenario.item_claim "Q1"].

Definition record_without_item : value :=
  Eval vm_compute in Scenario.record_of (analyze_image without_item (Some "photo")).

End Cases.

(** ** Vocabulary of the statements *)

Fixpoint pluses (n : nat) : string :=
  match n with
  | O => EmptyString
  | S n' => String "+"%char (pluses n')
  end.

Definition first_char (s : string) : option ascii := String.get 0 s.

(** What the specification asks of a time value: one leading sign
    character goes, whichever it is, and the text from ["T"] on goes. *)
Definition strip_sign (s : string) : string :=
  match s with
  | String "+"%char s' => s'
  | String "-"%char s' => s'
  | _ => s
  end.

Definition calendar_date (s : string) : string := before_T (strip_sign s).

(** The follow-up request for [joined] is answered with status 200 and a
    JSON body whose ["entities"] is a dict with the items [items]. *)
Definition labels_answer (rt : runtime) (joined : string)
    (items : list (string * value)) : Prop :=
  exists resp body entities,
    http_get rt (labels_request joined) = Ok resp
    /\ status_code resp = 200
    /\ json resp = Ok body
    /\ py_get body "entities" (VDict []) = Ok entities
    /\ py_items entities = Ok items.

(** [data["labels"]["en"]["value"]] where every step exists. *)
Definition english_label (data : value) : option value :=
  match field data "labels" with
  | Some labels =>
      match field labels "en" with
      | Some en => field en "value"
      | None => None
      end
  | None => None
  end.

(** [labels.get(eid, eid)], line 97. *)
Definition label_of (labels : list (string * value)) (eid : value) : value :=
  or_default (py_get_key (VDict labels) eid eid) eid.


(** A computation makes at most [n] requests. *)
Definition at_most {A} (n : nat) (m : M A) : Prop :=
  (length (snd m) <= n)%nat.

(** Whatever a computation returns satisfies [P]. *)
Definition returns {A} (P : A -> Prop) (m : M A) : Prop :=
  forall a, fst m = Ok a -> P a.

Definition is_dict (v : value) : Prop := exists d, v = VDict d.

(** A request gets no usable answer: [requests.get] raises (a timeout, a
    refused connection), the status is not 200, or the body is not JSON. *)
Definition request_fails (rt : runtime) (req : request) : Prop :=
  match http_get rt req with
  | Raise _ => True
  | Ok resp => status_code resp <> 200 \/ exists e, json resp = Raise e
  end.

(** The entity request for [wikidata_id] is answered with status 200 and a
    JSON body that holds [entity_data] for it. *)
Definition entity_fetched (rt : runtime) (wikidata_id entity_data : value) : Prop :=
  exists resp body entities,
    http_get rt (entity_request wikidata_id) = Ok resp
    /\ status_code resp = 200
    /\ json resp = Ok body
    /\ py_get body "entities" (VDict []) = Ok entities
    /\ py_get_key entities wikidata_id (VDict []) = Ok entity_data.

(** [claims.get(property, [])] on the dict [claims]. *)
Definition claims_of (claims : list (string * value)) (property : string) : value :=
  match dict_get claims property with
  | Some x => x
  | None => VList []
  end.

(** A property without claims: no entry, or an empty list. *)
Definition no_claims (claims : list (string * value)) (property : string) : Prop :=
  dict_get claims property = None \/ dict_get claims property = Some (VList []).

(** An output field is absent: the key is missing, or its value is
    [None] (JSON [null]). *)
Definition absent (o : option value) : Prop :=
  o = None \/ o = Some VNone.

(** A value that is no dict, and one that is no string. *)
Definition not_dict (v : value) : Prop := forall d, v <> VDict d.

Definition not_str (v : value) : Prop := forall s, v <> VStr s.

(** The entity of [get_wikidata_info] when it is not empty: the five
    fields, in the order of lines 43-49, the two multi-valued ones lists. *)
Definition five_fields (info : value) : Prop :=
  exists desc inception styles countries website,
    info = VDict [("description", desc);
                  ("inception_date", inception);
                  ("architectural_styles", VList styles);
                  ("country", VList countries);
                  ("official_website", website)].

Definition is_list (v : value) : Prop := exists l, v = VList l.

(** Line 95 does not raise for an entry of the label response: its
    ["labels"] and the ["en"] inside, where present, are dicts. *)
Definition well_shaped (entry : string * value) : Prop :=
  exists l, entity_label (fst entry) (snd entry) = Ok l.


(** Line 44: the English description of the entity, [''] when missing. *)
Definition description_lookup (entity_data : value) : outcome value :=
  (descriptions <~ py_get entity_data "descriptions" (VDict []) ;;
   en <~ py_get descriptions "en" (VDict []) ;;
   py_get en "value" (VStr EmptyString))%outcome.

(** Lines 75-76 do not raise on the claims of a property. *)
Definition lookups_succeed (rt : runtime) (claims : value) : Prop :=
  truthy claims = false \/ exists ids, entity_ids rt claims = Ok ids.

(** What [extract_entity_labels] returns for the claims of a property. *)
Definition resolved (rt : runtime) (claims : value) : value :=
  or_default (fst (extract_entity_labels rt claims)) (VList []).

(** [claims[0]...] raises for a claim: a step of line 75 meets a value
    that is no dict. *)
Definition id_lookup_raises (c : value) : Prop :=
  exists e, claim_entity_id c = Raise e.

(** Line 95 raises for an entry of the label response. *)
Definition label_lookup_raises (entry : string * value) : Prop :=
  exists e, entity_label (fst entry) (snd entry) = Raise e.

(** * Properties *)

(** ** Dicts and strings *)

Lemma dict_get_set (d : list (string * value)) (k k' : string) (v : value) :
  dict_get (dict_set d k v) k' = if String.eqb k k' then Some v else dict_get d k'.
Proof.
  induction d as [|[k0 v0] d IH]; simpl.
  - reflexivity.
  - destruct (String.eqb_spec k0 k) as [->|Hne]; simpl.
    + destruct (String.eqb k k'); reflexivity.
    + rewrite IH. destruct (String.eqb_spec k0 k') as [->|Hne'].
      * destruct (String.eqb_spec k k') as [->|_]; [congruence | reflexivity].
      * reflexivity.
Qed.

Lemma lstrip_plus_spec (s : string) :
  exists n, s = pluses n ++ lstrip_plus s
            /\ first_char (lstrip_plus s) <> Some "+"%char.
Proof.
  induction s as [|c s (n & Hs & Hc)].
  - exists O. split; [reflexivity | discriminate].
  - destruct (Ascii.eqb_spec c "+"%char) as [->|Hne].
    + exists (S n). simpl. split; [now f_equal | exact Hc].
    + exists O.
      assert (E : lstrip_plus (String c s) = String c s).
      { destruct c as [[] [] [] [] [] [] [] []]; try reflexivity. now elim Hne. }
      rewrite E. split; [reflexivity|].
      unfold first_char. simpl. congruence.
Qed.

Lemma before_T_spec (s : string) :
  exists rest, s = before_T s ++ rest
               /\ (rest = EmptyString \/ first_char rest = Some "T"%char)
               /\ ~ In "T"%char (list_ascii_of_string (before_T s)).
Proof.
  induction s as [|c s (rest & Hs & Hr & Hn)].
  - exists EmptyString. simpl. tauto.
  - destruct (Ascii.eqb_spec c "T"%char) as [->|Hne].
    + exists (String "T"%char s). simpl. split; [reflexivity|].
      split; [now right | tauto].
    + assert (E : before_T (String c s) = String c (before_T s)).
      { destruct c as [[] [] [] [] [] [] [] []]; try reflexivity. now elim Hne. }
      rewrite E. exists rest. simpl. split; [now f_equal|].
      split; [exact Hr|]. intros [H|H]; [congruence | now apply Hn].
Qed.

Lemma before_T_first_char (s : string) :
  first_char s <> Some "+"%char -> first_char (before_T s) <> Some "+"%char.
Proof.
  destruct s as [|c s]; [intros _; discriminate|].
  destruct (Ascii.eqb_spec c "T"%char) as [->|Hne].
  - intros _. discriminate.
  - assert (E : before_T (String c s) = String c (before_T s)).
    { destruct c as [[] [] [] [] [] [] [] []]; try reflexivity. now elim Hne. }
    rewrite E. exact (fun H => H).
Qed.

Lemma py_first_truthy (v c : value) : py_first v = Ok c -> truthy v = true.
Proof.
  destruct v as [| | | |s|l|]; try discriminate.
  - destruct s; [discriminate | reflexivity].
  - destruct l; [discriminate | reflexivity].
Qed.

(** ** Dates (C4) *)

(** C4, as stated, fails: a date before the common era keeps its sign.
    Wikidata writes such a date with a leading ["-"], [lstrip("+")] leaves
    it in place, and the projection is not the bare calendar date. *)
Lemma C4_minus_sign_is_kept :
  extract_claim_value (VList [Scenario.time_claim "-0500-01-01T00:00:00Z"]) false
    = VStr "-0500-01-01"
  /\ extract_claim_value (VList [Scenario.time_claim "-0500-01-01T00:00:00Z"]) false
    <> VStr (calendar_date "-0500-01-01T00:00:00Z").
Proof.
  split; [reflexivity|]. vm_compute. discriminate.
Qed.

(** C4, amended: the projection of a date-valued claim (the first claim's
    value is a dict whose ["time"] is the string [s]) is [s] without its
    leading ["+"] characters and without the text from the first ["T"] on;
    nothing else is removed, so a leading ["-"] stays.  The raw value
    ["+1889-03-31T00:00:00Z"] projects to ["1889-03-31"]. *)
Theorem C4_date_projection (claims c : value) (d : list (string * value))
    (s : string) :
  py_first claims = Ok c ->
  claim_value c = Ok (VDict d) ->
  dict_get d "time" = Some (VStr s) ->
  let date := before_T (lstrip_plus s) in
  extract_claim_value claims false = VStr date
  /\ (exists n rest,
        s = pluses n ++ date ++ rest
        /\ first_char (date ++ rest) <> Some "+"%char
        /\ (rest = EmptyString \/ first_char rest = Some "T"%char))
  /\ first_char date <> Some "+"%char
  /\ ~ In "T"%char (list_ascii_of_string date).
Proof.
  intros Hc Hv Ht date.
  split.
  - unfold extract_claim_value.
    rewrite (py_first_truthy _ Hc). simpl.
    rewrite Hc. simpl. rewrite Hv. simpl. rewrite Ht. reflexivity.
  - destruct (lstrip_plus_spec s) as (n & Hs & Hp).
    destruct (before_T_spec (lstrip_plus s)) as (rest & Hb & Hr & Hn).
    fold date in Hb, Hn.
    split; [|split].
    + exists n, rest. rewrite <- Hb. auto.
    + now apply before_T_first_char.
    + exact Hn.
Qed.

Lemma C4_date_projection_eiffel :
  extract_claim_value (VList [Scenario.time_claim "+1889-03-31T00:00:00Z"]) false
    = VStr "1889-03-31".
Proof.
  exact (proj1 (@C4_date_projection
                  (VList [Scenario.time_claim "+1889-03-31T00:00:00Z"])
                  (Scenario.time_claim "+1889-03-31T00:00:00Z")
                  [("time", VStr "+1889-03-31T00:00:00Z"); ("precision", VInt 11)]
                  "+1889-03-31T00:00:00Z"
                  eq_refl eq_refl eq_refl)).
Defined.

(** ** Running the monad *)

Lemma bind_ok {A B} (a : A) (k : A -> M B) : bind (lift (Ok a)) k = k a.
Proof. unfold bind, lift. now destruct (k a). Qed.

Lemma bind_raise {A B} (e : exn) (k : A -> M B) :
  bind (lift (Raise e)) k = (Raise e, []).
Proof. reflexivity. Qed.

Lemma bind_requests_get {B} (rt : runtime) (req : request) (k : response -> M B) :
  bind (requests_get rt req) k
  = match http_get rt req with
    | Ok resp => (fst (k resp), req :: snd (k resp))
    | Raise e => (Raise e, [req])
    end.
Proof.
  unfold bind, requests_get. destruct (http_get rt req) as [resp|e]; [|reflexivity].
  now destruct (k resp).
Qed.

Lemma try_except_caught {A} (e : exn) (t : trace) (a : A) :
  try_except (Raise e, t) (fun _ => ret a) = (Ok a, t).
Proof. unfold try_except, ret. now rewrite app_nil_r. Qed.

(** ** Label resolution (C7, C2, C3) *)

Section Labels.

Variable rt : runtime.




Lemma pipe_join_map (ss : list string) :
  pipe_join (map VStr ss) = Ok (String.concat "|" ss).
Proof.
  unfold pipe_join.
  assert (E : mapM as_str (map VStr ss) = Ok ss).
  { induction ss as [|s ss IH]; simpl; [reflexivity | now rewrite IH]. }
  now rewrite E.
Qed.

Lemma resolve_all (labels : list (string * value)) (ss : list string) :
  mapM (fun eid => py_get_key (VDict labels) eid eid) (map VStr ss)
  = Ok (map (label_of labels) (map VStr ss)).
Proof.
  induction ss as [|s ss IH]; [reflexivity|].
  cbn [map mapM]. rewrite IH. unfold label_of. simpl.
  destruct (dict_get labels s); reflexivity.
Qed.

(** The run of [extract_entity_labels] once the identifiers are known:
    one request, then the labels in the order of the identifiers. *)
Lemma extract_entity_labels_reaches_try (claims : value) (ss : list string) :
  truthy claims = true ->
  entity_ids rt claims = Ok (map VStr ss) ->
  ss <> [] ->
  extract_entity_labels rt claims
  = try_except
      (match http_get rt (labels_request (String.concat "|" ss)) with
       | Raise e => (Raise e, [labels_request (String.concat "|" ss)])
       | Ok resp =>
           (if negb (status_code resp =? 200) then Ok (VList [])
            else
              (body <~ json resp ;;
               entities <~ py_get body "entities" (VDict []) ;;
               items <~ py_items entities ;;
               labels <~ build_labels items [] ;;
               Ok (VList (map (label_of labels) (map VStr ss))))%outcome,
            [labels_request (String.concat "|" ss)])
       end)
      (fun _ => ret (VList [])).
Proof.
  intros Ht Hids Hne.
  unfold extract_entity_labels. rewrite Ht, Hids. cbn [negb]. rewrite bind_ok.
  destruct ss as [|s ss]; [contradiction|].
  change (list_nonempty (map VStr (s :: ss))) with true. cbn [negb].
  rewrite pipe_join_map, bind_ok, bind_requests_get.
  f_equal.
  destruct (http_get rt _) as [resp|e]; [|reflexivity].
  destruct (negb (status_code resp =? 200)); [reflexivity|].
  destruct (json resp) as [body|]; cbn [obind];
    [rewrite bind_ok | reflexivity].
  destruct (py_get body "entities" (VDict [])) as [entities|]; cbn [obind];
    [rewrite bind_ok | reflexivity].
  destruct (py_items entities) as [items|]; cbn [obind];
    [rewrite bind_ok | reflexivity].
  destruct (build_labels items []) as [labels|]; cbn [obind];
    [rewrite bind_ok | reflexivity].
  rewrite resolve_all, bind_ok. reflexivity.
Qed.

(** The run of [extract_entity_labels] once the identifiers are known:
    one request, then the labels in the order of the identifiers. *)
Lemma extract_entity_labels_answered (claims : value) (ss : list string)
    (items labels : list (string * value)) :
  truthy claims = true ->
  entity_ids rt claims = Ok (map VStr ss) ->
  ss <> [] ->
  labels_answer rt (String.concat "|" ss) items ->
  build_labels items [] = Ok labels ->
  extract_entity_labels rt claims
  = (Ok (VList (map (label_of labels) (map VStr ss))),
     [labels_request (String.concat "|" ss)]).
Proof.
  intros Ht Hids Hne (resp & body & entities & Hget & Hst & Hjs & Hen & Hit) Hb.
  rewrite (extract_entity_labels_reaches_try _ Ht Hids Hne).
  rewrite Hget, Hst. cbn [Z.eqb Pos.eqb negb].
  rewrite Hjs. cbn [obind]. rewrite Hen. cbn [obind].
  rewrite Hit. cbn [obind]. rewrite Hb. reflexivity.
Qed.

(** Whatever the answer, a resolution that reaches the [try] makes the
    one request and returns a list. *)
Lemma extract_entity_labels_one_request (claims : value) (ss : list string) :
  truthy claims = true ->
  entity_ids rt claims = Ok (map VStr ss) ->
  ss <> [] ->
  exists out,
    extract_entity_labels rt claims
    = (Ok (VList out), [labels_request (String.concat "|" ss)]).
Proof.
  intros Ht Hids Hne.
  rewrite (extract_entity_labels_reaches_try _ Ht Hids Hne).
  destruct (http_get rt _) as [resp|e];
    [|rewrite try_except_caught; now exists []].
  destruct (negb (status_code resp =? 200)); [now exists []|].
  destruct (json resp) as [body|]; cbn [obind];
    [|rewrite try_except_caught; now exists []].
  destruct (py_get body "entities" (VDict [])) as [entities|]; cbn [obind];
    [|rewrite try_except_caught; now exists []].
  destruct (py_items entities) as [items|]; cbn [obind];
    [|rewrite try_except_caught; now exists []].
  destruct (build_labels items []) as [labels|]; cbn [obind];
    [|rewrite try_except_caught; now exists []].
  now eexists.
Qed.

End Labels.

(** *** The order of the labels *)

Lemma simple_eqb_eq (a b : value) :
  str_or_none a -> (simple_eqb a b = true <-> a = b).
Proof.
  intros [->|[s ->]]; destruct b; simpl; split; try discriminate; try reflexivity.
  - intros H. f_equal. now apply String.eqb_eq.
  - intros [= ->]. apply String.eqb_refl.
Qed.

Lemma first_occurrences_In (l : list value) (v : value) :
  Forall str_or_none l -> (In v (first_occurrences l) <-> In v l).
Proof.
  induction 1 as [|x l Hx Hl IH]; simpl; [tauto|].
  rewrite filter_In, IH, negb_true_iff.
  split.
  - intros [H|[H _]]; auto.
  - intros [H|H]; [now left|].
    destruct (simple_eqb x v) eqn:E; [|now right].
    left. now apply simple_eqb_eq.
Qed.

Lemma first_occurrences_NoDup (l : list value) :
  Forall str_or_none l -> NoDup (first_occurrences l).
Proof.
  induction 1 as [|x l Hx Hl IH]; simpl; constructor.
  - rewrite filter_In, negb_true_iff. intros [_ H].
    assert (E : simple_eqb x x = true) by now apply simple_eqb_eq.
    congruence.
  - now apply NoDup_filter.
Qed.

Lemma python_a_set_iter_ok : set_iter_ok Scenario.python_a.
Proof.
  intros l Hl. split.
  - now apply first_occurrences_NoDup.
  - intros v. now apply first_occurrences_In.
Qed.


(** The strings among the truthy elements of a list. *)
Lemma truthy_strings (l : list value) :
  Forall str_or_none l ->
  exists ss, filter truthy l = map VStr ss
             /\ forall s, In s ss <-> In (VStr s) l /\ s <> EmptyString.
Proof.
  induction 1 as [|x l Hx Hl (ss & Hf & Hin)]; simpl.
  - exists []. split; [reflexivity|]. simpl. tauto.
  - destruct Hx as [->|[s ->]]; simpl.
    + exists ss. split; [exact Hf|]. intros s. rewrite Hin.
      split; [tauto|]. intros [[H|H] Hs]; [discriminate | tauto].
    + destruct s as [|c s]; simpl.
      * exists ss. split; [exact Hf|]. intros s. rewrite Hin.
        split; [tauto|]. intros [[H|H] Hs]; [|tauto].
        injection H as <-. now elim Hs.
      * exists (String c s :: ss). split; [now rewrite Hf|].
        intros s'. simpl. rewrite Hin. split.
        -- intros [<-|[H Hs]]; [split; [now left | discriminate] | tauto].
        -- intros [[H|H] Hs]; [left; congruence | tauto].
Qed.

Lemma str_or_none_hashable (l : list value) :
  Forall str_or_none l -> forallb hashable l = true.
Proof.
  induction 1 as [|x l [->|[s ->]] _ IH]; simpl; auto.
Qed.


(** *** Counting requests *)

Lemma at_most_ret {A} (n : nat) (a : A) : at_most n (ret a).
Proof. unfold at_most. simpl. lia. Qed.

Lemma at_most_lift {A} (n : nat) (o : outcome A) : at_most n (lift o).
Proof. unfold at_most. simpl. lia. Qed.

Lemma at_most_bind {A B} (n p : nat) (m : M A) (k : A -> M B) :
  at_most n m -> (forall a, at_most p (k a)) -> at_most (n + p) (bind m k).
Proof.
  unfold at_most, bind. intros Hm Hk.
  destruct m as [[a|e] t]; simpl in *; [|lia].
  specialize (Hk a). destruct (k a) as [o t']. simpl in *.
  rewrite length_app. lia.
Qed.

Lemma at_most_bind_lift {A B} (n : nat) (o : outcome A) (k : A -> M B) :
  (forall a, at_most n (k a)) -> at_most n (bind (lift o) k).
Proof. intros Hk. apply (@at_most_bind A B 0 n); [apply at_most_lift | exact Hk]. Qed.

Lemma at_most_requests_get (rt : runtime) (req : request) :
  at_most 1 (requests_get rt req).
Proof. unfold at_most. simpl. lia. Qed.

Lemma at_most_try {A} (n : nat) (body : M A) (a : A) :
  at_most n body -> at_most n (try_except body (fun _ => ret a)).
Proof.
  unfold at_most, try_except. destruct body as [[x|e] t]; simpl; [easy|].
  now rewrite app_nil_r.
Qed.

Ltac count_requests :=
  repeat first
    [ apply at_most_ret
    | apply at_most_try
    | apply at_most_bind_lift; intro
    | match goal with
      | |- at_most _ (if ?b then _ else _) => destruct b
      end ].

Lemma extract_entity_labels_at_most_one (rt : runtime) (claims : value) :
  at_most 1 (extract_entity_labels rt claims).
Proof.
  unfold extract_entity_labels. count_requests.
  apply (@at_most_bind _ _ 1 0); [apply at_most_requests_get|].
  intro resp. count_requests.
Qed.

Lemma get_wikidata_info_at_most_three (rt : runtime) (wikidata_id : value) :
  at_most 3 (get_wikidata_info rt wikidata_id).
Proof.
  unfold get_wikidata_info. count_requests.
  apply (@at_most_bind _ _ 1 2); [apply at_most_requests_get|].
  intro resp. count_requests.
  apply (@at_most_bind _ _ 1 1); [apply extract_entity_labels_at_most_one|].
  intro styles. count_requests.
  apply (@at_most_bind _ _ 1 0); [apply extract_entity_labels_at_most_one|].
  intro country. count_requests.
Qed.

(** ** What the clients return *)

Lemma fst_bind {A B} (m : M A) (k : A -> M B) :
  fst (bind m k) = match fst m with
                   | Ok a => fst (k a)
                   | Raise e => Raise e
                   end.
Proof.
  unfold bind. destruct m as [[a|e] t]; simpl; [|reflexivity].
  now destruct (k a).
Qed.

Lemma returns_ret {A} (P : A -> Prop) (a : A) : P a -> returns P (ret a).
Proof. intros H x [= <-]. exact H. Qed.

Lemma returns_bind {A B} (P : B -> Prop) (m : M A) (k : A -> M B) :
  (forall a, returns P (k a)) -> returns P (bind m k).
Proof.
  intros Hk b. rewrite fst_bind. destruct (fst m) as [a|e]; [|discriminate].
  apply Hk.
Qed.

(** A [try] whose handler returns a default never raises. *)
Lemma try_except_total {A} (P : A -> Prop) (body : M A) (dflt : A) :
  returns P body -> P dflt ->
  exists a t, try_except body (fun _ => ret dflt) = (Ok a, t) /\ P a.
Proof.
  intros Hb Hd. destruct body as [[a|e] t].
  - exists a, t. split; [reflexivity | now apply Hb].
  - exists dflt, t. split; [apply try_except_caught | exact Hd].
Qed.

Ltac returns_dict :=
  repeat first
    [ apply returns_ret; eexists; reflexivity
    | apply returns_bind; intro
    | match goal with
      | |- returns _ (if ?b then _ else _) => destruct b
      end ].

Lemma fetch_wiki_data_total (rt : runtime) (name : string) :
  exists w t, fetch_wiki_data rt name = (Ok w, t).
Proof.
  destruct (@try_except_total value (fun _ => True)
              (resp <- requests_get rt (summary_request name) ;;
               if status_code resp =? 200
               then body <~ json resp ;; ret body
               else ret (VDict []))%py (VDict [])) as (w & t & H & _).
  - intros a _. exact I.
  - exact I.
  - now exists w, t.
Qed.

Lemma get_wikidata_info_total (rt : runtime) (wikidata_id : value) :
  exists d t, get_wikidata_info rt wikidata_id = (Ok (VDict d), t).
Proof.
  unfold get_wikidata_info.
  destruct (negb (truthy wikidata_id)); [now exists [], []|].
  match goal with
  | |- exists d t, try_except ?body _ = _ =>
      destruct (@try_except_total value is_dict body (VDict [])) as (v & t & H & d & ->)
  end.
  - returns_dict.
  - now exists [].
  - now exists d, t.
Qed.

Lemma get_location_details_total (rt : runtime) (lat lon : value) :
  exists d t, get_location_details rt lat lon = (Ok (VDict d), t).
Proof.
  unfold get_location_details.
  match goal with
  | |- exists d t, try_except ?body _ = _ =>
      destruct (@try_except_total value is_dict body (VDict [])) as (v & t & H & d & ->)
  end.
  - returns_dict.
  - now exists [].
  - now exists d, t.
Qed.

Lemma location_details_of_total (rt : runtime) (locs : list LatLng) :
  exists d t, location_details_of rt locs = (Ok (VDict d), t).
Proof.
  destruct locs as [|loc locs]; simpl; [now exists [], []|].
  destruct (get_location_details_total rt (VFloat (latitude loc))
              (VFloat (longitude loc))) as (d & t & ->).
  unfold bind, lift, ret. simpl. now eexists; eexists.
Qed.

(** A request that fails leaves each client with its empty answer. *)
Lemma fetch_wiki_data_fails (rt : runtime) (name : string) :
  request_fails rt (summary_request name) ->
  fetch_wiki_data rt name = (Ok (VDict []), [summary_request name]).
Proof.
  unfold request_fails, fetch_wiki_data. rewrite bind_requests_get.
  destruct (http_get rt _) as [resp|e]; [|reflexivity].
  intros [Hst|[e He]].
  - apply Z.eqb_neq in Hst. now rewrite Hst.
  - destruct (status_code resp =? 200); [|reflexivity]. now rewrite He.
Qed.

Lemma get_wikidata_info_fails (rt : runtime) (wikidata_id : value) :
  truthy wikidata_id = true ->
  request_fails rt (entity_request wikidata_id) ->
  get_wikidata_info rt wikidata_id = (Ok (VDict []), [entity_request wikidata_id]).
Proof.
  unfold request_fails, get_wikidata_info. intros ->. cbn [negb].
  rewrite bind_requests_get.
  destruct (http_get rt _) as [resp|e]; [|reflexivity].
  intros [Hst|[e He]].
  - apply Z.eqb_neq in Hst. now rewrite Hst.
  - destruct (status_code resp =? 200); [|reflexivity]. now rewrite He.
Qed.

Lemma get_location_details_fails (rt : runtime) (lat lon : value) :
  request_fails rt (geocode_request rt lat lon) ->
  get_location_details rt lat lon = (Ok (VDict []), [geocode_request rt lat lon]).
Proof.
  unfold request_fails, get_location_details. rewrite bind_requests_get.
  destruct (http_get rt _) as [resp|e]; [|reflexivity].
  intros [Hst|[e He]].
  - apply Z.eqb_neq in Hst. now rewrite Hst.
  - destruct (status_code resp =? 200); [|reflexivity]. now rewrite He.
Qed.

Lemma extract_entity_labels_fails (rt : runtime) (claims : value)
    (ss : list string) :
  truthy claims = true ->
  entity_ids rt claims = Ok (map VStr ss) ->
  ss <> [] ->
  request_fails rt (labels_request (String.concat "|" ss)) ->
  extract_entity_labels rt claims
  = (Ok (VList []), [labels_request (String.concat "|" ss)]).
Proof.
  intros Ht Hids Hne.
  rewrite (@extract_entity_labels_reaches_try rt claims ss Ht Hids Hne).
  unfold request_fails.
  destruct (http_get rt _) as [resp|e]; [|reflexivity].
  intros [Hst|[e He]].
  - apply Z.eqb_neq in Hst. now rewrite Hst.
  - destruct (status_code resp =? 200); [|reflexivity]. now rewrite He.
Qed.

(** ** The merged record *)

Section Record.

Variable rt : runtime.

Lemma wiki_data_of_run (name : string) :
  exists t, fetch_wiki_data rt name = (Ok (wiki_data_of rt name), t).
Proof.
  destruct (fetch_wiki_data_total rt name) as (w & t & H).
  exists t. unfold wiki_data_of. now rewrite H.
Qed.

Lemma wikidata_info_of_run (name : string) :
  exists t,
    (if truthy (wikidata_id_of rt name)
     then get_wikidata_info rt (wikidata_id_of rt name)
     else ret (VDict [])) = (Ok (wikidata_info_of rt name), t).
Proof.
  unfold wikidata_info_of.
  destruct (truthy (wikidata_id_of rt name)); [|now exists []].
  destruct (get_wikidata_info_total rt (wikidata_id_of rt name)) as (d & t & H).
  exists t. now rewrite H.
Qed.

(** What [enrich] returns is [build_result] on the values of the local
    variables. *)
Lemma enrich_fst (landmark : EntityAnnotation) :
  let name := description landmark in
  fst (enrich rt landmark)
  = match py_get (wiki_data_of rt name) "wikibase_item" VNone with
    | Raise e => Raise e
    | Ok _ =>
        match fst (location_details_of rt (candidate_locations landmark)) with
        | Raise e => Raise e
        | Ok location_details =>
            build_result rt name (wiki_data_of rt name) (wikidata_id_of rt name)
                         (wikidata_info_of rt name) location_details
        end
    end.
Proof.
  intros name. unfold enrich. fold name.
  destruct (wiki_data_of_run name) as (t & Hw).
  rewrite fst_bind, Hw. cbn [fst].
  rewrite fst_bind. cbn [lift fst].
  destruct (py_get (wiki_data_of rt name) "wikibase_item" VNone) as [id|e] eqn:Eid;
    [|reflexivity].
  assert (Hid : wikidata_id_of rt name = id).
  { unfold wikidata_id_of, looked_up. now rewrite Eid. }
  destruct (wikidata_info_of_run name) as (t' & Hi). rewrite Hid in Hi.
  rewrite fst_bind, Hi. cbn [fst]. rewrite Hid.
  rewrite fst_bind.
  destruct (fst (location_details_of rt (candidate_locations landmark)))
    as [location_details|e]; [|reflexivity].
  rewrite fst_bind. cbn [lift fst].
  now destruct (build_result rt name _ id _ location_details).
Qed.

Lemma enrich_inv (landmark : EntityAnnotation) (result : value) :
  fst (enrich rt landmark) = Ok result ->
  let name := description landmark in
  exists location_details,
    fst (location_details_of rt (candidate_locations landmark)) = Ok location_details
    /\ build_result rt name (wiki_data_of rt name) (wikidata_id_of rt name)
                    (wikidata_info_of rt name) location_details = Ok result.
Proof.
  rewrite enrich_fst. intros H name. fold name in H.
  destruct (py_get (wiki_data_of rt name) "wikibase_item" VNone); [|discriminate].
  destruct (fst (location_details_of rt (candidate_locations landmark)))
    as [location_details|]; [|discriminate].
  now exists location_details.
Qed.

(** The fields of [result], read off line by line. *)
Lemma build_result_inv (name : string)
    (wiki_data wikidata_id wikidata_info location_details result : value) :
  build_result rt name wiki_data wikidata_id wikidata_info location_details
  = Ok result ->
  exists desc,
    description_of wikidata_info wiki_data = Ok desc
    /\ field result "name" = Some (VStr name)
    /\ field result "description" = Some desc
    /\ field2 result "historical_context" "inception_date"
       = Some (looked_up wikidata_info "inception_date")
    /\ field2 result "historical_context" "architectural_styles"
       = Some (looked_up wikidata_info "architectural_styles")
    /\ field2 result "historical_context" "significance"
       = Some (looked_up wiki_data "description")
    /\ field result "location" = Some location_details
    /\ field result "official_website"
       = Some (looked_up wikidata_info "official_website")
    /\ field2 result "references" "wikidata"
       = Some (wikidata_reference rt wikidata_id)
    /\ field2 result "references" "google_maps"
       = Some (looked_up location_details "maps_link").
Proof.
  unfold build_result, looked_up.
  destruct (description_of wikidata_info wiki_data) as [desc|]; [|discriminate].
  cbn [obind].
  destruct (py_get wikidata_info "inception_date" VNone); [|discriminate].
  cbn [obind].
  destruct (py_get wikidata_info "architectural_styles" VNone); [|discriminate].
  cbn [obind].
  destruct (py_get wiki_data "description" VNone); [|discriminate].
  cbn [obind].
  destruct (py_get wikidata_info "official_website" VNone); [|discriminate].
  cbn [obind].
  destruct (py_get wiki_data "content_urls" (VDict [])) as [cu|]; [|discriminate].
  cbn [obind].
  destruct (py_get cu "desktop" (VDict [])) as [dk|]; [|discriminate].
  cbn [obind].
  destruct (py_get dk "page" VNone); [|discriminate].
  cbn [obind].
  destruct (py_get location_details "maps_link" VNone); [|discriminate].
  cbn [obind].
  intros [= <-]. exists desc. repeat split; reflexivity.
Qed.

Lemma description_of_inv (wikidata_info wiki_data desc : value) :
  description_of wikidata_info wiki_data = Ok desc ->
  desc = py_or (looked_up wikidata_info "description")
               (py_or (looked_up wiki_data "extract") (VStr no_description)).
Proof.
  unfold description_of, looked_up, py_or.
  destruct (py_get wikidata_info "description" VNone) as [d|]; [|discriminate].
  cbn [obind or_default].
  destruct (truthy d); [now intros [= <-]|].
  destruct (py_get wiki_data "extract" VNone) as [e|]; [|discriminate].
  cbn [obind or_default]. now intros [= <-].
Qed.

End Record.

Lemma analyze_image_reply (rt : runtime) (content : string)
    (landmark : EntityAnnotation) (rest : list EntityAnnotation) :
  landmark_detection rt content = Ok (landmark :: rest) ->
  fst (analyze_image rt (Some content))
  = match fst (enrich rt landmark) with
    | Ok result => Reply 200 result
    | Raise e => ServerError e
    end.
Proof.
  intros H. unfold analyze_image. rewrite H.
  now destruct (enrich rt landmark) as [[result|e] t].
Qed.

Lemma analyze_image_inv (rt : runtime) (content : string)
    (landmark : EntityAnnotation) (rest : list EntityAnnotation) (result : value) :
  landmark_detection rt content = Ok (landmark :: rest) ->
  fst (analyze_image rt (Some content)) = Reply 200 result ->
  fst (enrich rt landmark) = Ok result.
Proof.
  intros H. rewrite (analyze_image_reply _ _ H).
  destruct (fst (enrich rt landmark)); [now intros [= ->] | discriminate].
Qed.

(** ** The description (C1, C8) *)

(** C1: the description of the output record is the knowledge-graph
    description when there is one, else the encyclopedia extract when
    there is one, else the sentinel; a knowledge-graph description is used
    as it is, whatever the extract.  A value is there when Python finds it
    true: a missing key, [None] and the empty string count as not there
    (line 44 itself writes a missing description as the empty string). *)
Theorem C1_description_precedence (rt : runtime) (content : string)
    (landmark : EntityAnnotation) (rest : list EntityAnnotation) (result : value) :
  landmark_detection rt content = Ok (landmark :: rest) ->
  fst (analyze_image rt (Some content)) = Reply 200 result ->
  let kg := looked_up (wikidata_info_of rt (description landmark)) "description" in
  let extract := looked_up (wiki_data_of rt (description landmark)) "extract" in
  (truthy kg = true -> field result "description" = Some kg)
  /\ (truthy kg = false -> truthy extract = true ->
      field result "description" = Some extract)
  /\ (truthy kg = false -> truthy extract = false ->
      field result "description" = Some (VStr "No description available")).
Proof.
  intros Hd Hr kg extract.
  apply (analyze_image_inv _ _ Hd) in Hr.
  destruct (enrich_inv _ _ Hr) as (loc & _ & Hb).
  destruct (build_result_inv _ _ _ _ _ _ Hb) as (desc & Hdesc & _ & -> & _).
  apply description_of_inv in Hdesc. subst desc. fold kg extract.
  unfold py_or. repeat split.
  - now intros ->.
  - now intros -> ->.
  - now intros -> ->.
Qed.

Lemma C1_description_precedence_eiffel :
  field Scenario.eiffel_record "description" = Some (VStr "tower in Paris").
Proof.
  apply (proj1 (@C1_description_precedence Scenario.python_a "photo"
                  Scenario.eiffel [] Scenario.eiffel_record eq_refl eq_refl)).
  reflexivity.
Defined.

(** C8: when the encyclopedia request times out, errors or is answered
    with a status other than 200, the client's [wiki_data] is the empty
    summary, no fault reaches the caller, no knowledge-graph request is
    made, and the handler replies 200 with a record whose description is
    the sentinel. *)
Theorem C8_encyclopedia_failure (rt : runtime) (content : string)
    (landmark : EntityAnnotation) (rest : list EntityAnnotation) :
  landmark_detection rt content = Ok (landmark :: rest) ->
  request_fails rt (summary_request (description landmark)) ->
  fetch_wiki_data rt (description landmark)
  = (Ok (VDict []), [summary_request (description landmark)])
  /\ wikidata_info_of rt (description landmark) = VDict []
  /\ exists result,
       fst (analyze_image rt (Some content)) = Reply 200 result
       /\ field result "description" = Some (VStr "No description available")
       /\ field2 result "references" "wikipedia" = Some VNone
       /\ field2 result "references" "wikidata" = Some VNone.
Proof.
  intros Hd Hf.
  pose proof (fetch_wiki_data_fails _ _ Hf) as Hw.
  assert (Ew : wiki_data_of rt (description landmark) = VDict []).
  { unfold wiki_data_of. now rewrite Hw. }
  assert (Ei : wikidata_info_of rt (description landmark) = VDict []).
  { unfold wikidata_info_of, wikidata_id_of. now rewrite Ew. }
  split; [exact Hw|]. split; [exact Ei|].
  rewrite (analyze_image_reply _ _ Hd), enrich_fst, Ei.
  unfold wikidata_id_of. rewrite Ew. cbn [py_get dict_get].
  destruct (location_details_of_total rt (candidate_locations landmark))
    as (d & t & ->). cbn [fst].
  unfold build_result. simpl.
  destruct (dict_get d "maps_link"); eexists; repeat split; reflexivity.
Qed.

Lemma C8_encyclopedia_failure_eiffel :
  exists result,
    fst (analyze_image Scenario.wikipedia_down (Some "photo")) = Reply 200 result
    /\ field result "description" = Some (VStr "No description available")
    /\ field2 result "references" "wikipedia" = Some VNone
    /\ field2 result "references" "wikidata" = Some VNone.
Proof.
  refine (proj2 (proj2 (@C8_encyclopedia_failure Scenario.wikipedia_down "photo"
                          Scenario.eiffel [] eq_refl _))).
  right. now exists JSONDecodeError.
Defined.

(** ** The location (C5, C6) *)

(** C5, as stated, fails for the location: without candidate coordinates
    the record still has its ["location"] key, and its value is the empty
    object, not [null]. *)
Lemma C5_location_is_an_empty_object :
  candidate_locations Scenario.eiffel_unplaced = []
  /\ fst (analyze_image Scenario.python_a (Some "unplaced"))
     = Reply 200 Scenario.eiffel_unplaced_record
  /\ field Scenario.eiffel_unplaced_record "location" = Some (VDict [])
  /\ ~ absent (field Scenario.eiffel_unplaced_record "location").
Proof.
  split; [reflexivity|]. split; [reflexivity|]. split; [reflexivity|].
  intros [H|H]; discriminate H.
Qed.

(** C5, amended: for a detection without candidate coordinates the
    record's location is the empty object (no coordinates, country, city
    or maps link), [references.google_maps] is [None], and the geocoder is
    not called. *)
Theorem C5_no_candidate_location (rt : runtime) (content : string)
    (landmark : EntityAnnotation) (rest : list EntityAnnotation) (result : value) :
  landmark_detection rt content = Ok (landmark :: rest) ->
  candidate_locations landmark = [] ->
  fst (analyze_image rt (Some content)) = Reply 200 result ->
  field result "location" = Some (VDict [])
  /\ field2 result "references" "google_maps" = Some VNone
  /\ location_details_of rt (candidate_locations landmark) = (Ok (VDict []), []).
Proof.
  intros Hd Hl Hr.
  apply (analyze_image_inv _ _ Hd) in Hr.
  destruct (enrich_inv _ _ Hr) as (loc & Hloc & Hb).
  rewrite Hl in Hloc. injection Hloc as <-.
  destruct (build_result_inv _ _ _ _ _ _ Hb)
    as (_ & _ & _ & _ & _ & _ & _ & Hlocation & _ & _ & Hmaps).
  rewrite Hl. repeat split; assumption.
Qed.

Lemma C5_no_candidate_location_eiffel :
  field Scenario.eiffel_unplaced_record "location" = Some (VDict [])
  /\ field2 Scenario.eiffel_unplaced_record "references" "google_maps" = Some VNone.
Proof.
  destruct (@C5_no_candidate_location Scenario.python_a "unplaced"
              Scenario.eiffel_unplaced [] Scenario.eiffel_unplaced_record
              eq_refl eq_refl eq_refl) as (H1 & H2 & _).
  now split.
Defined.

(** C6: with a first candidate coordinate and a reverse-geocoding request
    that fails (an exception, a status such as 503, a body that is not
    JSON), the record's location holds exactly the coordinates and the
    maps link ["https://maps.google.com/?q={lat},{lon}"], both taken from
    the input coordinates; it has no country and no city. *)
Theorem C6_geocoding_failure (rt : runtime) (content : string)
    (landmark : EntityAnnotation) (rest : list EntityAnnotation)
    (loc : LatLng) (others : list LatLng) (result : value) :
  landmark_detection rt content = Ok (landmark :: rest) ->
  candidate_locations landmark = loc :: others ->
  request_fails rt (geocode_request rt (VFloat (latitude loc))
                                       (VFloat (longitude loc))) ->
  fst (analyze_image rt (Some content)) = Reply 200 result ->
  field2 result "location" "coordinates"
  = Some (VDict [("latitude", VFloat (latitude loc));
                 ("longitude", VFloat (longitude loc))])
  /\ field2 result "location" "maps_link"
     = Some (VStr ("https://maps.google.com/?q=" ++ latitude loc ++ ","
                   ++ longitude loc))
  /\ field2 result "location" "country" = None
  /\ field2 result "location" "city" = None
  /\ field2 result "references" "google_maps"
     = Some (VStr ("https://maps.google.com/?q=" ++ latitude loc ++ ","
                   ++ longitude loc)).
Proof.
  intros Hd Hl Hf Hr.
  apply (analyze_image_inv _ _ Hd) in Hr.
  destruct (enrich_inv _ _ Hr) as (details & Hloc & Hb).
  rewrite Hl in Hloc. unfold location_details_of in Hloc.
  rewrite (get_location_details_fails _ _ _ Hf) in Hloc.
  injection Hloc as <-.
  destruct (build_result_inv _ _ _ _ _ _ Hb)
    as (_ & _ & _ & _ & _ & _ & _ & Hlocation & _ & _ & Hmaps).
  unfold field2. rewrite Hlocation. fold (field2 result "references" "google_maps").
  rewrite Hmaps. repeat split; reflexivity.
Qed.

Lemma C6_geocoding_failure_eiffel :
  field2 Scenario.eiffel_record_nominatim_down "location" "coordinates"
  = Some (VDict [("latitude", VFloat "48.8584"); ("longitude", VFloat "2.2945")])
  /\ field2 Scenario.eiffel_record_nominatim_down "location" "maps_link"
     = Some (VStr "https://maps.google.com/?q=48.8584,2.2945")
  /\ field2 Scenario.eiffel_record_nominatim_down "location" "country" = None
  /\ field2 Scenario.eiffel_record_nominatim_down "location" "city" = None.
Proof.
  destruct (@C6_geocoding_failure Scenario.nominatim_down "photo"
              Scenario.eiffel [] {| latitude := "48.8584"; longitude := "2.2945" |}
              [] Scenario.eiffel_record_nominatim_down eq_refl eq_refl)
    as (H1 & H2 & H3 & H4 & _).
  - left. discriminate.
  - reflexivity.
  - repeat split; assumption.
Defined.

(** ** The knowledge-graph reference (C10) *)

(** C10: [references.wikidata] is the link
    ["https://www.wikidata.org/wiki/" + id] exactly when the encyclopedia
    response carried an identifier in [wikibase_item] (a value Python
    finds true, so not a missing key, [None] or the empty string), and
    [None] otherwise.  Nothing is assumed of the knowledge-graph fetch:
    the link is the same whether it succeeds or fails. *)
Theorem C10_wikidata_reference (rt : runtime) (content : string)
    (landmark : EntityAnnotation) (rest : list EntityAnnotation) (result : value) :
  landmark_detection rt content = Ok (landmark :: rest) ->
  fst (analyze_image rt (Some content)) = Reply 200 result ->
  let wikidata_id := looked_up (wiki_data_of rt (description landmark))
                               "wikibase_item" in
  (truthy wikidata_id = true ->
   field2 result "references" "wikidata"
   = Some (VStr ("https://www.wikidata.org/wiki/"
                 ++ py_str (repr_container rt) wikidata_id)))
  /\ (forall qid, wikidata_id = VStr qid -> qid <> EmptyString ->
      field2 result "references" "wikidata"
      = Some (VStr ("https://www.wikidata.org/wiki/" ++ qid)))
  /\ (truthy wikidata_id = false ->
      field2 result "references" "wikidata" = Some VNone)
  /\ (field2 result "references" "wikidata" <> Some VNone
      <-> truthy wikidata_id = true).
Proof.
  intros Hd Hr wikidata_id.
  apply (analyze_image_inv _ _ Hd) in Hr.
  destruct (enrich_inv _ _ Hr) as (loc & _ & Hb).
  destruct (build_result_inv _ _ _ _ _ _ Hb)
    as (_ & _ & _ & _ & _ & _ & _ & _ & _ & Href & _).
  rewrite Href. unfold wikidata_reference, wikidata_id_of. fold wikidata_id.
  split; [now intros ->|]. split; [|split].
  - intros qid -> Hq. destruct qid; [now elim Hq | reflexivity].
  - now intros ->.
  - destruct (truthy wikidata_id); split; intros H; try reflexivity.
    + discriminate.
    + now elim H.
    + discriminate.
Qed.

Lemma C10_wikidata_reference_eiffel :
  request_fails Scenario.wikidata_down (entity_request (VStr "Q243"))
  /\ field2 Scenario.eiffel_record_wikidata_down "references" "wikidata"
     = Some (VStr "https://www.wikidata.org/wiki/Q243").
Proof.
  split; [left; discriminate|].
  apply (proj1 (proj2 (@C10_wikidata_reference Scenario.wikidata_down "photo"
                         Scenario.eiffel [] Scenario.eiffel_record_wikidata_down
                         eq_refl eq_refl)) "Q243"); [reflexivity | discriminate].
Defined.

(** ** The shape of the knowledge-graph entity (C9) *)

Lemma fst_try_except {A} (body : M A) (dflt : A) :
  fst (try_except body (fun _ => ret dflt))
  = match fst body with
    | Ok a => Ok a
    | Raise _ => Ok dflt
    end.
Proof. now destruct body as [[a|e] t]. Qed.

Lemma no_claims_of (claims : list (string * value)) (property : string) :
  no_claims claims property -> claims_of claims property = VList [].
Proof. unfold claims_of. now intros [-> | ->]. Qed.

(** C9, as stated, fails on a failed fetch: with the knowledge-graph
    service down the entity is the empty dict, which has none of the five
    fields, and the record's architectural styles are [None], not an empty
    sequence. *)
Lemma C9_failed_fetch_has_no_fields :
  request_fails Scenario.wikidata_down (entity_request (VStr "Q243"))
  /\ fst (get_wikidata_info Scenario.wikidata_down (VStr "Q243")) = Ok (VDict [])
  /\ fst (analyze_image Scenario.wikidata_down (Some "photo"))
     = Reply 200 Scenario.eiffel_record_wikidata_down
  /\ field2 Scenario.eiffel_record_wikidata_down
        "historical_context" "architectural_styles" = Some VNone
  /\ field2 Scenario.eiffel_record_wikidata_down
        "historical_context" "architectural_styles" <> Some (VList []).
Proof.
  split; [left; discriminate|].
  repeat split; try reflexivity. discriminate.
Qed.

(** * Further properties of the code *)

(** ** [extract_claim_value] *)

(** X1: a URL-valued claim passes through verbatim: with [is_url] the
    value of the first claim is returned as it is, even when it is a dict
    with a ["time"]; without [is_url] the same holds of every value that
    has no ["time"]. *)
Theorem X1_first_value_verbatim (claims c v : value) :
  py_first claims = Ok c ->
  claim_value c = Ok v ->
  extract_claim_value claims true = v
  /\ (field v "time" = None -> extract_claim_value claims false = v).
Proof.
  intros Hc Hv. unfold extract_claim_value.
  rewrite (py_first_truthy _ Hc). cbn [negb]. rewrite Hc. cbn [obind].
  rewrite Hv. cbn [obind]. split; [reflexivity|].
  destruct v as [| | | | | |d]; try reflexivity.
  simpl. now intros ->.
Qed.

Lemma X1_first_value_verbatim_website :
  extract_claim_value
    (VList [Scenario.time_claim "+1889-03-31T00:00:00Z"; Scenario.website_claim])
    true
  = VDict [("time", VStr "+1889-03-31T00:00:00Z"); ("precision", VInt 11)].
Proof.
  exact (proj1 (@X1_first_value_verbatim
                  (VList [Scenario.time_claim "+1889-03-31T00:00:00Z";
                          Scenario.website_claim])
                  (Scenario.time_claim "+1889-03-31T00:00:00Z")
                  (VDict [("time", VStr "+1889-03-31T00:00:00Z");
                          ("precision", VInt 11)])
                  eq_refl eq_refl)).
Defined.

(** X2: [extract_claim_value] answers [None] instead of raising: for
    claims that are empty, for claims that cannot be indexed, for a first
    claim whose [mainsnak] or [datavalue] is no dict, and (without
    [is_url]) for a ["time"] that is no string. *)
Theorem X2_malformed_claim_is_none (claims : value) (is_url : bool) :
  truthy claims = false
  \/ (exists e, py_first claims = Raise e)
  \/ (exists c e, py_first claims = Ok c /\ claim_value c = Raise e)
  \/ (is_url = false
      /\ exists c d t, py_first claims = Ok c
                       /\ claim_value c = Ok (VDict d)
                       /\ dict_get d "time" = Some t /\ not_str t) ->
  extract_claim_value claims is_url = VNone.
Proof.
  unfold extract_claim_value.
  intros [Ht|[[e He]|[(c & e & Hc & He)|(Hu & c & d & t & Hc & Hv & Ht & Hs)]]].
  - now rewrite Ht.
  - destruct (truthy claims); [|reflexivity]. cbn [negb]. now rewrite He.
  - rewrite (py_first_truthy _ Hc). cbn [negb]. rewrite Hc. cbn [obind].
    now rewrite He.
  - rewrite (py_first_truthy _ Hc), Hu. cbn [negb]. rewrite Hc. cbn [obind].
    rewrite Hv. cbn [obind]. rewrite Ht.
    destruct t; try reflexivity. now elim (Hs s).
Qed.

Lemma X2_malformed_claim_is_none_cases :
  extract_claim_value (VList []) false = VNone
  /\ extract_claim_value (VList [VDict [("mainsnak", VNone)]]) true = VNone
  /\ extract_claim_value
       (VList [Scenario.snak (VDict [("time", VInt 1889)])]) false = VNone.
Proof.
  split; [|split].
  - apply X2_malformed_claim_is_none. now left.
  - apply X2_malformed_claim_is_none. right. right. left.
    exists (VDict [("mainsnak", VNone)]), AttributeError. now split.
  - apply X2_malformed_claim_is_none. right. right. right. split; [reflexivity|].
    exists (Scenario.snak (VDict [("time", VInt 1889)])),
           [("time", VInt 1889)], (VInt 1889).
    repeat split; try reflexivity. intros s. discriminate.
Defined.

(** ** [extract_entity_labels] *)

Lemma mapM_raises {A B} (f : A -> outcome B) (l : list A) :
  Exists (fun a => exists e, f a = Raise e) l -> exists e, mapM f l = Raise e.
Proof.
  induction 1 as [a l [e He]|a l _ [e IH]]; simpl.
  - exists e. now rewrite He.
  - destruct (f a) as [b|e']; [|now exists e'].
    exists e. now rewrite IH.
Qed.

Lemma extract_entity_labels_raises (rt : runtime) (cs : list value) :
  Exists id_lookup_raises cs ->
  exists e, extract_entity_labels rt (VList cs) = (Raise e, []).
Proof.
  intros H. destruct (mapM_raises _ H) as [e He].
  assert (Ht : truthy (VList cs) = true) by now destruct H.
  exists e. unfold extract_entity_labels. rewrite Ht. cbn [negb].
  unfold entity_ids. cbn [py_iter obind]. rewrite He. reflexivity.
Qed.

(** X3: lines 75-76 are outside the [try] of [extract_entity_labels]: one
    claim of "architectural style" or of "country" whose identifier cannot
    be looked up (its value is a string, say) raises through to
    [get_wikidata_info], whose handler returns the empty entity; the
    description, the inception date and the website are lost with it. *)
Theorem X3_malformed_reference_empties_entity (rt : runtime)
    (wikidata_id entity_data : value) (claims : list (string * value))
    (cs : list value) :
  truthy wikidata_id = true ->
  entity_fetched rt wikidata_id entity_data ->
  py_get entity_data "claims" (VDict []) = Ok (VDict claims) ->
  dict_get claims "P149" = Some (VList cs)
  \/ dict_get claims "P17" = Some (VList cs) ->
  Exists id_lookup_raises cs ->
  fst (get_wikidata_info rt wikidata_id) = Ok (VDict []).
Proof.
  intros Ht (resp & body & entities & Hget & Hst & Hjs & Hen & Hkey) Hcl Hp Hex.
  destruct (extract_entity_labels_raises rt Hex) as [e He].
  unfold get_wikidata_info. rewrite Ht. cbn [negb].
  rewrite fst_try_except, bind_requests_get, Hget, Hst. cbn [fst Z.eqb Pos.eqb negb].
  rewrite Hjs, bind_ok, Hen, bind_ok, Hkey, bind_ok, Hcl, bind_ok.
  assert (Hc : forall p, py_get (VDict claims) p (VList []) = Ok (claims_of claims p)).
  { intros p. unfold claims_of. simpl. now destruct (dict_get claims p). }
  destruct (py_get entity_data "descriptions" (VDict [])) as [ds|];
    [rewrite bind_ok | reflexivity].
  destruct (py_get ds "en" (VDict [])) as [en|]; [rewrite bind_ok | reflexivity].
  destruct (py_get en "value" (VStr EmptyString)) as [desc|];
    [rewrite bind_ok | reflexivity].
  rewrite !Hc, !bind_ok, fst_bind.
  destruct Hp as [Hp|Hp].
  - unfold claims_of at 1. rewrite Hp, He. reflexivity.
  - destruct (fst (extract_entity_labels rt (claims_of claims "P149")));
      [|reflexivity].
    rewrite bind_ok, fst_bind. unfold claims_of at 1. rewrite Hp, He. reflexivity.
Qed.

Lemma X3_malformed_reference_empties_entity_case :
  fst (get_wikidata_info Cases.with_string_claim (VStr "Q243")) = Ok (VDict []).
Proof.
  apply (@X3_malformed_reference_empties_entity Cases.with_string_claim
           (VStr "Q243")
           (VDict [("claims",
                    VDict [("P149", VList [Scenario.item_claim "Q1";
                                           Cases.string_claim])])])
           [("P149", VList [Scenario.item_claim "Q1"; Cases.string_claim])]
           [Scenario.item_claim "Q1"; Cases.string_claim]).
  - reflexivity.
  - eexists; eexists; eexists. repeat split; reflexivity.
  - reflexivity.
  - now left.
  - apply Exists_cons_tl, Exists_cons_hd. now exists AttributeError.
Defined.

(** X4: claims that reference nothing (no [datavalue], as for Wikidata's
    "unknown value", or an empty identifier) resolve to the empty sequence
    without any request. *)
Theorem X4_no_identifier_no_request (rt : runtime) (cs raw : list value) :
  set_iter_ok rt ->
  mapM claim_entity_id cs = Ok raw ->
  Forall (fun v => v = VNone \/ v = VStr EmptyString) raw ->
  extract_entity_labels rt (VList cs) = (Ok (VList []), []).
Proof.
  intros Hset Hraw Hall.
  destruct cs as [|c cs]; [reflexivity|].
  assert (Hs : Forall str_or_none raw).
  { eapply Forall_impl; [|exact Hall]. intros v [->| ->]; [now left|].
    right. now eexists. }
  destruct (Hset raw Hs) as [_ Hin].
  assert (Hf : filter truthy (set_iter rt raw) = []).
  { destruct (filter truthy (set_iter rt raw)) as [|v l] eqn:E; [reflexivity|].
    assert (Hv : In v (filter truthy (set_iter rt raw))) by (rewrite E; now left).
    apply filter_In in Hv. destruct Hv as [Hv Htv]. apply Hin in Hv.
    rewrite Forall_forall in Hall. destruct (Hall v Hv) as [->| ->]; discriminate. }
  unfold extract_entity_labels. cbn [truthy list_nonempty negb].
  unfold entity_ids. cbn [py_iter obind]. rewrite Hraw. cbn [obind].
  unfold py_set. rewrite (str_or_none_hashable Hs). cbn [obind]. rewrite Hf.
  reflexivity.
Qed.

Lemma X4_no_identifier_no_request_case :
  extract_entity_labels Scenario.python_a
    (VList [Cases.valueless_claim; Cases.valueless_claim])
  = (Ok (VList []), []).
Proof.
  apply (@X4_no_identifier_no_request Scenario.python_a
           [Cases.valueless_claim; Cases.valueless_claim] [VNone; VNone]).
  - exact python_a_set_iter_ok.
  - reflexivity.
  - repeat (constructor; [now left|]). constructor.
Defined.

(** X5: an identifier that is no string (a number, say) makes
    ["|".join] raise inside the [try]: the result is the empty sequence,
    the other identifiers are dropped with it, and no request is made. *)
Theorem X5_non_string_identifier (rt : runtime) (claims : value)
    (ids : list value) :
  truthy claims = true ->
  entity_ids rt claims = Ok ids ->
  Exists not_str ids ->
  extract_entity_labels rt claims = (Ok (VList []), []).
Proof.
  intros Ht Hids Hex.
  assert (Hj : exists e, pipe_join ids = Raise e).
  { unfold pipe_join.
    destruct (@mapM_raises _ _ as_str ids) as [e He].
    - eapply Exists_impl; [|exact Hex]. intros v Hv.
      destruct v; try (now exists TypeError). now elim (Hv s).
    - exists e. now rewrite He. }
  destruct Hj as [e Hj].
  unfold extract_entity_labels. rewrite Ht, Hids. cbn [negb]. rewrite bind_ok.
  assert (Hn : list_nonempty ids = true) by now destruct Hex.
  rewrite Hn, Hj. cbn [negb]. rewrite bind_raise. apply try_except_caught.
Qed.

Lemma X5_non_string_identifier_case :
  extract_entity_labels Scenario.python_a
    (VList [Scenario.item_claim "Q1"; Cases.numeric_claim])
  = (Ok (VList []), []).
Proof.
  apply (@X5_non_string_identifier Scenario.python_a
           (VList [Scenario.item_claim "Q1"; Cases.numeric_claim])
           [VStr "Q1"; VInt 42]).
  - reflexivity.
  - reflexivity.
  - apply Exists_cons_tl, Exists_cons_hd. intros s. discriminate.
Defined.

Lemma entity_label_resolved (qid : string) (data l label : value) :
  entity_label qid data = Ok l -> english_label data = Some label -> l = label.
Proof.
  unfold entity_label, english_label, field, py_get.
  destruct data as [| | | | | |d]; simpl; try discriminate.
  destruct (dict_get d "labels") as [[| | | | | |ls]|]; simpl; try discriminate.
  destruct (dict_get ls "en") as [[| | | | | |en]|]; simpl; try discriminate.
  destruct (dict_get en "value"); [congruence | discriminate].
Qed.

Lemma build_labels_resolved (qid : string) (label : value) :
  forall items acc labels,
    build_labels items acc = Ok labels ->
    (forall data, In (qid, data) items -> english_label data = Some label) ->
    dict_get acc qid = Some label \/ In qid (map fst items) ->
    dict_get labels qid = Some label.
Proof.
  induction items as [|[q data] items IH]; simpl; intros acc labels Hb Hl Hin.
  - injection Hb as <-. now destruct Hin.
  - destruct (entity_label q data) as [l|] eqn:El; [|discriminate].
    apply (IH _ _ Hb); [intros; apply Hl; now right|].
    rewrite dict_get_set.
    destruct (String.eqb_spec q qid) as [->|Hne].
    + left. f_equal. eapply entity_label_resolved; [exact El|]. apply Hl. now left.
    + destruct Hin as [H|[H|H]]; [now left | contradiction | now right].
Qed.

Lemma build_labels_succeeds (items : list (string * value)) :
  Forall well_shaped items ->
  forall acc, exists labels, build_labels items acc = Ok labels.
Proof.
  induction 1 as [|[q data] items [l Hl] _ IH]; simpl; intros acc.
  - now exists acc.
  - simpl in Hl. rewrite Hl. apply IH.
Qed.

(** X6: when the follow-up request is answered with status 200 and a
    JSON body whose ["entities"] is an object, and no entry of it is
    malformed (line 95 raises on none), an identifier that the response
    gives an English label appears as that label at its own position of
    the output. *)
Theorem X6_resolved_id_gets_label (rt : runtime) (claims : value)
    (ss : list string) (items : list (string * value)) :
  truthy claims = true ->
  entity_ids rt claims = Ok (map VStr ss) ->
  ss <> [] ->
  labels_answer rt (String.concat "|" ss) items ->
  Forall well_shaped items ->
  exists out,
    fst (extract_entity_labels rt claims) = Ok (VList out)
    /\ forall i qid label,
         nth_error ss i = Some qid ->
         In qid (map fst items) ->
         (forall data, In (qid, data) items -> english_label data = Some label) ->
         nth_error out i = Some label.
Proof.
  intros Ht Hids Hne Hans Hok.
  destruct (build_labels_succeeds Hok []) as [labels Hb].
  exists (map (label_of labels) (map VStr ss)).
  rewrite (@extract_entity_labels_answered rt claims ss items labels
             Ht Hids Hne Hans Hb).
  split; [reflexivity|].
  intros i qid label Hi Hin Hl.
  rewrite map_map, nth_error_map, Hi. simpl. f_equal.
  unfold label_of. simpl.
  rewrite (@build_labels_resolved qid label items [] labels Hb Hl); auto.
Qed.

Lemma X6_resolved_id_gets_label_eiffel :
  exists out,
    fst (extract_entity_labels Scenario.python_a (VList Scenario.style_claims))
    = Ok (VList out)
    /\ nth_error out 0 = Some (VStr "structural expressionism").
Proof.
  destruct (@X6_resolved_id_gets_label Scenario.python_a
              (VList Scenario.style_claims) ["Q1"; "Q2"] Scenario.label_items)
    as (out & Hout & Hpos).
  - reflexivity.
  - reflexivity.
  - discriminate.
  - eexists; eexists; eexists. repeat split; reflexivity.
  - repeat (constructor; [eexists; reflexivity|]). constructor.
  - exists out. split; [exact Hout|].
    apply (Hpos 0%nat "Q1"); [reflexivity | now left |].
    intros data [H|[H|[H|[]]]]; try discriminate H.
    now injection H as <-.
Defined.

Lemma build_labels_raises (items : list (string * value)) :
  Exists label_lookup_raises items ->
  forall acc, exists e, build_labels items acc = Raise e.
Proof.
  induction 1 as [[q data] items [e He]|[q data] items _ IH]; simpl; intros acc.
  - simpl in He. rewrite He. now exists e.
  - destruct (entity_label q data) as [l|e]; [apply IH | now exists e].
Qed.

(** X7: one entry of the follow-up response that is not shaped as line 95
    expects (its ["labels"] or its ["en"] is no dict) raises inside the
    [try]: the whole sequence is empty, the labels that did resolve
    included. *)
Theorem X7_malformed_entry_empties_labels (rt : runtime) (claims : value)
    (ss : list string) (items : list (string * value)) :
  truthy claims = true ->
  entity_ids rt claims = Ok (map VStr ss) ->
  ss <> [] ->
  labels_answer rt (String.concat "|" ss) items ->
  Exists label_lookup_raises items ->
  extract_entity_labels rt claims
  = (Ok (VList []), [labels_request (String.concat "|" ss)]).
Proof.
  intros Ht Hids Hne (resp & body & entities & Hget & Hst & Hjs & Hen & Hit) Hex.
  destruct (build_labels_raises Hex []) as [e He].
  rewrite (@extract_entity_labels_reaches_try rt claims ss Ht Hids Hne).
  rewrite Hget, Hst. cbn [Z.eqb Pos.eqb negb].
  rewrite Hjs. cbn [obind]. rewrite Hen. cbn [obind].
  rewrite Hit. cbn [obind]. rewrite He. cbn [obind].
  apply try_except_caught.
Qed.

Lemma X7_malformed_entry_empties_labels_case :
  extract_entity_labels Cases.with_broken_labels (VList Scenario.style_claims)
  = (Ok (VList []), [labels_request "Q1|Q2"]).
Proof.
  apply (@X7_malformed_entry_empties_labels Cases.with_broken_labels
           (VList Scenario.style_claims) ["Q1"; "Q2"] Cases.broken_label_items).
  - reflexivity.
  - reflexivity.
  - discriminate.
  - eexists; eexists; eexists. repeat split; reflexivity.
  - apply Exists_cons_tl, Exists_cons_hd. now exists AttributeError.
Defined.

(** ** [get_location_details] *)

Lemma bind_lift {A B} (o : outcome A) (k : A -> M B) :
  bind (lift o) k = match o with
                    | Ok a => k a
                    | Raise e => (Raise e, [])
                    end.
Proof. destruct o; [apply bind_ok | reflexivity]. Qed.

(** What the geocoding client returns, with the one request it makes. *)
Lemma get_location_details_shape (rt : runtime) (lat lon : value) :
  exists d,
    get_location_details rt lat lon = (Ok (VDict d), [geocode_request rt lat lon])
    /\ (d = [] \/ exists country city, d = [("country", country); ("city", city)]).
Proof.
  unfold get_location_details. rewrite bind_requests_get.
  destruct (http_get rt _) as [resp|e];
    [|exists []; split; [apply try_except_caught | now left]].
  destruct (status_code resp =? 200); [|exists []; split; [reflexivity | now left]].
  rewrite bind_lift.
  destruct (json resp) as [body|];
    [|exists []; split; [apply try_except_caught | now left]].
  rewrite bind_lift.
  destruct (py_get body "address" (VDict [])) as [address|];
    [|exists []; split; [apply try_except_caught | now left]].
  rewrite bind_lift.
  destruct (py_get address "country" VNone) as [country|];
    [|exists []; split; [apply try_except_caught | now left]].
  rewrite bind_lift.
  destruct (py_get address "city" VNone) as [city|];
    [|exists []; split; [apply try_except_caught | now left]].
  rewrite bind_lift.
  destruct (py_get address "town" VNone) as [town|];
    [|exists []; split; [apply try_except_caught | now left]].
  rewrite bind_lift.
  destruct (py_get address "village" VNone) as [village|];
    [|exists []; split; [apply try_except_caught | now left]].
  eexists. split; [reflexivity|]. right. now eexists; eexists.
Qed.

(** X8: when the geocoder answers 200 with a JSON body whose ["address"]
    is a dict (or is missing), the fragment has both keys; the country is
    the address's country and the city is the address's city if Python
    finds it true, else its town if true, else its village, whatever that
    is ([None] when missing). *)
Theorem X8_city_town_village (rt : runtime) (lat lon : value) (resp : response)
    (body : value) (address : list (string * value)) :
  http_get rt (geocode_request rt lat lon) = Ok resp ->
  status_code resp = 200 ->
  json resp = Ok body ->
  py_get body "address" (VDict []) = Ok (VDict address) ->
  let part := looked_up (VDict address) in
  exists city,
    fst (get_location_details rt lat lon)
    = Ok (VDict [("country", part "country"); ("city", city)])
    /\ (truthy (part "city") = true -> city = part "city")
    /\ (truthy (part "city") = false -> truthy (part "town") = true ->
        city = part "town")
    /\ (truthy (part "city") = false -> truthy (part "town") = false ->
        city = part "village").
Proof.
  intros Hget Hst Hjs Had part.
  exists (py_or (part "city") (py_or (part "town") (part "village"))).
  split.
  - unfold get_location_details.
    rewrite fst_try_except, bind_requests_get, Hget, Hst. cbn [fst Z.eqb Pos.eqb].
    rewrite Hjs, bind_ok, Had, bind_ok.
    assert (Hp : forall k, py_get (VDict address) k VNone = Ok (part k)).
    { intros k. unfold part, looked_up. simpl. now destruct (dict_get address k). }
    rewrite !Hp, !bind_ok. reflexivity.
  - unfold py_or. repeat split.
    + now intros ->.
    + now intros -> ->.
    + now intros -> ->.
Qed.

Lemma X8_city_town_village_paris :
  fst (get_location_details Scenario.python_a (VFloat "48.8584") (VFloat "2.2945"))
  = Ok (VDict [("country", VStr "France"); ("city", VStr "Paris")]).
Proof.
  destruct (@X8_city_town_village Scenario.python_a (VFloat "48.8584")
              (VFloat "2.2945")
              {| status_code := 200; json := Ok Scenario.paris_address |}
              Scenario.paris_address
              [("town", VStr "Paris"); ("country", VStr "France")]
              eq_refl eq_refl eq_refl eq_refl)
    as (city & Hrun & _ & Htown & _).
  rewrite Hrun, (Htown eq_refl eq_refl). reflexivity.
Defined.

(** X9: the geocoding client never raises and makes exactly one request,
    whatever the values and whatever the answer: a GET of the reverse
    endpoint with the coordinates in the query and the contact
    [User-Agent] header; what it returns is the empty dict or a dict with
    exactly the keys ["country"] and ["city"]. *)
Theorem X9_one_identified_geocoding_request (rt : runtime) (lat lon : value) :
  exists d req,
    get_location_details rt lat lon = (Ok (VDict d), [req])
    /\ (d = [] \/ map fst d = ["country"; "city"])
    /\ headers req = [("User-Agent", "LandmarkInfoService/1.0 (contact@example.com)")]
    /\ params req = []
    /\ url req = "https://nominatim.openstreetmap.org/reverse?format=json&lat="
                 ++ py_str (repr_container rt) lat ++ "&lon="
                 ++ py_str (repr_container rt) lon.
Proof.
  destruct (get_location_details_shape rt lat lon) as (d & Hrun & Hd).
  exists d, (geocode_request rt lat lon). split; [exact Hrun|].
  split; [|repeat split].
  destruct Hd as [->|(country & city & ->)]; [now left | now right].
Qed.

(** ** [analyze_image] *)

Lemma bind_returned {A B} (m : M A) (k : A -> M B) (a : A) (t : trace) :
  m = (Ok a, t) -> bind m k = (fst (k a), (t ++ snd (k a))%list).
Proof. intros ->. unfold bind. now destruct (k a). Qed.

Lemma fetch_wiki_data_trace (rt : runtime) (name : string) :
  fetch_wiki_data rt name = (Ok (wiki_data_of rt name), [summary_request name]).
Proof.
  unfold wiki_data_of, fetch_wiki_data. rewrite bind_requests_get.
  destruct (http_get rt _) as [resp|e]; [|reflexivity].
  destruct (status_code resp =? 200); [|reflexivity].
  now destruct (json resp).
Qed.

Lemma location_details_of_first (rt : runtime) (loc : LatLng)
    (others : list LatLng) :
  exists d,
    get_location_details rt (VFloat (latitude loc)) (VFloat (longitude loc))
    = (Ok (VDict d),
       [geocode_request rt (VFloat (latitude loc)) (VFloat (longitude loc))])
    /\ (d = [] \/ exists country city, d = [("country", country); ("city", city)])
    /\ location_details_of rt (loc :: others)
       = (Ok (VDict ((("coordinates", location_dict loc) :: d)
                     ++ [("maps_link", VStr (maps_link loc))])),
          [geocode_request rt (VFloat (latitude loc)) (VFloat (longitude loc))]).
Proof.
  destruct (get_location_details_shape rt (VFloat (latitude loc))
              (VFloat (longitude loc))) as (d & Hrun & Hd).
  exists d. split; [exact Hrun|]. split; [exact Hd|].
  unfold location_details_of. rewrite (bind_returned _ Hrun).
  destruct Hd as [->|(country & city & ->)]; reflexivity.
Qed.

Lemma location_details_of_at_most_one (rt : runtime) (locs : list LatLng) :
  at_most 1 (location_details_of rt locs).
Proof.
  destruct locs as [|loc others]; [apply at_most_ret|].
  destruct (location_details_of_first rt loc others) as (d & _ & _ & ->).
  unfold at_most. simpl. lia.
Qed.

(** The requests of [enrich]: the summary request, then those of the
    entity fetch, then the geocoder's. *)
Lemma enrich_snd (rt : runtime) (landmark : EntityAnnotation) :
  let name := description landmark in
  snd (enrich rt landmark)
  = summary_request name
    :: match py_get (wiki_data_of rt name) "wikibase_item" VNone with
       | Raise _ => []
       | Ok _ =>
           (snd (if truthy (wikidata_id_of rt name)
                 then get_wikidata_info rt (wikidata_id_of rt name)
                 else ret (VDict []))
            ++ snd (location_details_of rt (candidate_locations landmark)))%list
       end.
Proof.
  intros name. unfold enrich. fold name.
  rewrite (bind_returned _ (fetch_wiki_data_trace rt name)). cbn [snd app].
  f_equal. rewrite bind_lift.
  destruct (py_get (wiki_data_of rt name) "wikibase_item" VNone) as [id|e] eqn:Eid;
    [|reflexivity].
  assert (Hid : wikidata_id_of rt name = id).
  { unfold wikidata_id_of, looked_up. now rewrite Eid. }
  rewrite Hid.
  destruct (location_details_of_total rt (candidate_locations landmark))
    as (d & t' & Hl).
  destruct (truthy id).
  - destruct (get_wikidata_info_total rt id) as (info & t & Hi).
    rewrite (bind_returned _ Hi), Hi. cbn [snd]. f_equal.
    rewrite (bind_returned _ Hl), Hl. cbn [snd]. rewrite bind_lift.
    destruct (build_result rt name _ id _ (VDict d)); simpl; now rewrite app_nil_r.
  - rewrite (@bind_returned _ _ (ret (VDict [])) _ (VDict []) [] eq_refl).
    cbn [ret snd app].
    rewrite (bind_returned _ Hl), Hl. cbn [snd]. rewrite bind_lift.
    destruct (build_result rt name _ id _ (VDict d)); simpl; now rewrite app_nil_r.
Qed.

Lemma analyze_image_trace (rt : runtime) (content : string)
    (landmark : EntityAnnotation) (rest : list EntityAnnotation) :
  landmark_detection rt content = Ok (landmark :: rest) ->
  snd (analyze_image rt (Some content)) = snd (enrich rt landmark).
Proof.
  intros H. unfold analyze_image. rewrite H.
  now destruct (enrich rt landmark) as [[result|e] t].
Qed.



Lemma wikidata_info_of_is_dict (rt : runtime) (name : string) :
  is_dict (wikidata_info_of rt name).
Proof.
  unfold wikidata_info_of.
  destruct (truthy (wikidata_id_of rt name)); [|now exists []].
  destruct (get_wikidata_info_total rt (wikidata_id_of rt name)) as (d & t & H).
  rewrite H. now exists d.
Qed.

(** X11: when the summary carries no [wikibase_item] the knowledge graph
    is not asked at all (no request goes to the Wikidata endpoint), the
    record's inception date, architectural styles, official website and
    Wikidata reference are [None], and the description is the extract, or
    the sentinel when there is none. *)
Theorem X11_no_item_no_knowledge_graph (rt : runtime) (content : string)
    (landmark : EntityAnnotation) (rest : list EntityAnnotation) :
  landmark_detection rt content = Ok (landmark :: rest) ->
  truthy (wikidata_id_of rt (description landmark)) = false ->
  Forall (fun req => url req <> wikidata_api)
         (snd (analyze_image rt (Some content)))
  /\ forall result,
       fst (analyze_image rt (Some content)) = Reply 200 result ->
       field2 result "historical_context" "inception_date" = Some VNone
       /\ field2 result "historical_context" "architectural_styles" = Some VNone
       /\ field result "official_website" = Some VNone
       /\ field2 result "references" "wikidata" = Some VNone
       /\ field result "description"
          = Some (py_or (looked_up (wiki_data_of rt (description landmark))
                                   "extract")
                        (VStr "No description available")).
Proof.
  intros Hd Hid. split.
  - rewrite (analyze_image_trace _ _ Hd), enrich_snd, Hid.
    constructor; [discriminate|].
    destruct (py_get _ "wikibase_item" VNone); [|constructor].
    cbn [ret snd app].
    destruct (candidate_locations landmark) as [|loc others]; [constructor|].
    destruct (location_details_of_first rt loc others) as (d & _ & _ & ->).
    constructor; [discriminate | constructor].
  - intros result Hr.
    apply (analyze_image_inv _ _ Hd) in Hr.
    destruct (enrich_inv _ _ Hr) as (loc & _ & Hb).
    assert (Ei : wikidata_info_of rt (description landmark) = VDict []).
    { unfold wikidata_info_of. now rewrite Hid. }
    rewrite Ei in Hb.
    destruct (build_result_inv _ _ _ _ _ _ Hb)
      as (desc & Hdesc & _ & H0 & H1 & H2 & _ & _ & H3 & H4 & _).
    apply description_of_inv in Hdesc.
    rewrite H0, H1, H2, H3, H4, Hdesc.
    unfold wikidata_reference. rewrite Hid. repeat split.
Qed.

Lemma X11_no_item_no_knowledge_graph_case :
  Forall (fun req => url req <> wikidata_api)
         (snd (analyze_image Cases.without_item (Some "photo")))
  /\ field Cases.record_without_item "description" = Some (VStr "A tower.")
  /\ field2 Cases.record_without_item "references" "wikidata" = Some VNone.
Proof.
  destruct (@X11_no_item_no_knowledge_graph Cases.without_item "photo"
              Scenario.eiffel [] eq_refl eq_refl) as (Htrace & Hrec).
  split; [exact Htrace|].
  destruct (Hrec Cases.record_without_item eq_refl) as (_ & _ & _ & H4 & H5).
  split; [exact H5 | exact H4].
Defined.

(** X12: one upload costs at most five outbound requests (the summary, at
    most three for the knowledge graph, one for the geocoder); none is
    made unless a landmark was detected, and the first one is always the
    summary request for the first landmark's name. *)
Theorem X12_at_most_five_requests (rt : runtime) (image : option string) :
  (length (snd (analyze_image rt image)) <= 5)%nat
  /\ (snd (analyze_image rt image) = []
      \/ exists content landmark rest t,
           image = Some content
           /\ landmark_detection rt content = Ok (landmark :: rest)
           /\ snd (analyze_image rt image)
              = summary_request (description landmark) :: t).
Proof.
  destruct image as [content|]; [|split; [simpl; lia | now left]].
  destruct (landmark_detection rt content) as [[|landmark rest]|e] eqn:Hd;
    try (unfold analyze_image; rewrite Hd; split; [simpl; lia | now left]).
  rewrite (analyze_image_trace _ _ Hd), enrich_snd. split.
  - cbn [length]. destruct (py_get _ "wikibase_item" VNone); [|simpl; lia].
    rewrite length_app.
    pose proof (location_details_of_at_most_one rt (candidate_locations landmark))
      as Hl.
    assert (Hk : (length (snd (if truthy (wikidata_id_of rt (description landmark))
                               then get_wikidata_info rt
                                      (wikidata_id_of rt (description landmark))
                               else ret (VDict []))) <= 3)%nat).
    { destruct (truthy _); [apply get_wikidata_info_at_most_three | simpl; lia]. }
    unfold at_most in Hl. lia.
  - right. now eexists content, landmark, rest, _.
Qed.

(** X13: a summary that is answered 200 with JSON that is no object (a
    list, a string, [null]) is not caught by the inner [try]: line 150
    raises on it and the handler replies 500, after the one request. *)
Theorem X13_summary_that_is_no_object (rt : runtime) (content : string)
    (landmark : EntityAnnotation) (rest : list EntityAnnotation)
    (resp : response) (body : value) :
  landmark_detection rt content = Ok (landmark :: rest) ->
  http_get rt (summary_request (description landmark)) = Ok resp ->
  status_code resp = 200 ->
  json resp = Ok body ->
  not_dict body ->
  analyze_image rt (Some content)
  = (ServerError AttributeError, [summary_request (description landmark)]).
Proof.
  intros Hd Hget Hst Hjs Hn.
  assert (Hw : wiki_data_of rt (description landmark) = body).
  { unfold wiki_data_of, fetch_wiki_data.
    now rewrite bind_requests_get, Hget, Hst, Hjs. }
  assert (Hg : py_get body "wikibase_item" VNone = Raise AttributeError).
  { destruct body; try reflexivity. now elim (Hn d). }
  apply injective_projections; cbn [fst snd].
  - now rewrite (analyze_image_reply _ _ Hd), enrich_fst, Hw, Hg.
  - now rewrite (analyze_image_trace _ _ Hd), enrich_snd, Hw, Hg.
Qed.

Lemma X13_summary_that_is_no_object_case :
  analyze_image Cases.with_list_summary (Some "photo")
  = (ServerError AttributeError, [summary_request "Eiffel Tower"]).
Proof.
  apply (@X13_summary_that_is_no_object Cases.with_list_summary "photo"
           Scenario.eiffel [] {| status_code := 200; json := Ok (VList []) |}
           (VList []) eq_refl eq_refl eq_refl eq_refl).
  intros d. discriminate.
Defined.

(** X14: a summary whose [content_urls] is there but is no object
    ([null], say) raises on line 176, after every client has been called:
    the handler replies 500 and the answers of the knowledge graph and of
    the geocoder are discarded. *)
Theorem X14_content_urls_that_is_no_object (rt : runtime) (content : string)
    (landmark : EntityAnnotation) (rest : list EntityAnnotation)
    (summary : list (string * value)) (urls : value) :
  landmark_detection rt content = Ok (landmark :: rest) ->
  wiki_data_of rt (description landmark) = VDict summary ->
  dict_get summary "content_urls" = Some urls ->
  not_dict urls ->
  fst (analyze_image rt (Some content)) = ServerError AttributeError.
Proof.
  intros Hd Hw Hu Hn.
  rewrite (analyze_image_reply _ _ Hd), enrich_fst, Hw.
  cbn [py_get]. destruct (dict_get summary "wikibase_item");
    (destruct (location_details_of_total rt (candidate_locations landmark))
       as (d & t & ->); cbn [fst];
     destruct (wikidata_info_of_is_dict rt (description landmark)) as [info ->];
     unfold build_result, description_of; cbn [py_get];
     destruct (dict_get info "description") as [kg|]; cbn [obind];
     [destruct (truthy kg)|]; cbn [truthy obind];
     destruct (dict_get summary "extract"); cbn [obind];
     destruct (dict_get info "inception_date"); cbn [obind];
     destruct (dict_get info "architectural_styles"); cbn [obind];
     destruct (dict_get summary "description"); cbn [obind];
     destruct (dict_get info "official_website"); cbn [obind];
     rewrite Hu; cbn [obind];
     destruct urls; try reflexivity; now elim (Hn d0)).
Qed.

Lemma X14_content_urls_that_is_no_object_case :
  fst (analyze_image Cases.with_null_urls (Some "photo"))
  = ServerError AttributeError.
Proof.
  apply (@X14_content_urls_that_is_no_object Cases.with_null_urls "photo"
           Scenario.eiffel [] Cases.null_urls_summary VNone
           eq_refl eq_refl eq_refl).
  intros d. discriminate.
Defined.

(** ** [get_wikidata_info] *)

(** X15: an entity the knowledge graph has nothing on (its identifier is
    missing from ["entities"], or its record is empty) is not a failure:
    the entity has its five fields, the description the empty string, the
    sequences empty and the rest [None], after the one request. *)
Theorem X15_entity_without_data (rt : runtime) (wikidata_id : value) :
  truthy wikidata_id = true ->
  entity_fetched rt wikidata_id (VDict []) ->
  get_wikidata_info rt wikidata_id
  = (Ok (VDict [("description", VStr EmptyString);
                ("inception_date", VNone);
                ("architectural_styles", VList []);
                ("country", VList []);
                ("official_website", VNone)]),
     [entity_request wikidata_id]).
Proof.
  intros Ht (resp & body & entities & Hget & Hst & Hjs & Hen & Hkey).
  unfold get_wikidata_info. rewrite Ht. cbn [negb].
  rewrite bind_requests_get, Hget, Hst. cbn [Z.eqb Pos.eqb negb].
  rewrite Hjs, bind_ok, Hen, bind_ok, Hkey, bind_ok.
  reflexivity.
Qed.

Lemma X15_entity_without_data_case :
  get_wikidata_info Scenario.python_a (VStr "Q0")
  = (Ok Scenario.unknown_entity_info, [entity_request (VStr "Q0")]).
Proof.
  apply (@X15_entity_without_data Scenario.python_a (VStr "Q0") eq_refl).
  eexists; eexists; eexists. repeat split; reflexivity.
Defined.

Lemma returns_bind_with {A B} (Q : A -> Prop) (P : B -> Prop) (m : M A)
    (k : A -> M B) :
  returns Q m -> (forall a, Q a -> returns P (k a)) -> returns P (bind m k).
Proof.
  intros Hm Hk b. rewrite fst_bind.
  destruct (fst m) as [a|e] eqn:E; [|discriminate].
  apply Hk. now apply Hm.
Qed.

Lemma returns_try {A} (P : A -> Prop) (body : M A) (dflt : A) :
  returns P body -> P dflt -> returns P (try_except body (fun _ => ret dflt)).
Proof.
  intros Hb Hd a. rewrite fst_try_except.
  destruct (fst body) as [x|e] eqn:E; intros [= <-]; [now apply Hb | exact Hd].
Qed.

Lemma extract_entity_labels_returns_list (rt : runtime) (claims : value) :
  returns is_list (extract_entity_labels rt claims).
Proof.
  unfold extract_entity_labels.
  destruct (negb (truthy claims)); [apply returns_ret; now exists []|].
  apply returns_bind. intros ids.
  destruct (negb (list_nonempty ids)); [apply returns_ret; now exists []|].
  apply returns_try; [|now exists []].
  repeat first
    [ apply returns_ret; eexists; reflexivity
    | apply returns_bind; intro
    | match goal with
      | |- returns _ (if ?b then _ else _) => destruct b
      end ].
Qed.

Lemma snd_try_except {A} (body : M A) (dflt : A) :
  snd (try_except body (fun _ => ret dflt)) = snd body.
Proof.
  destruct body as [[a|e] t]; [reflexivity|]. simpl. apply app_nil_r.
Qed.

(** X16: the entity fetch never raises; what it returns is the empty dict
    or a dict with exactly the five fields of lines 43-49, whose
    architectural styles and country are lists.  For an identifier Python
    finds false nothing is requested; otherwise the entity request comes
    first and at most two more follow. *)
Theorem X16_entity_is_empty_or_complete (rt : runtime) (wikidata_id : value) :
  exists info t,
    get_wikidata_info rt wikidata_id = (Ok info, t)
    /\ (info = VDict [] \/ five_fields info)
    /\ (truthy wikidata_id = false -> info = VDict [] /\ t = [])
    /\ (truthy wikidata_id = true ->
        exists t', t = entity_request wikidata_id :: t' /\ (length t' <= 2)%nat).
Proof.
  destruct (get_wikidata_info_total rt wikidata_id) as (d & t & Hrun).
  exists (VDict d), t. split; [exact Hrun|].
  pose proof (get_wikidata_info_at_most_three rt wikidata_id) as Hlen.
  unfold at_most in Hlen. rewrite Hrun in Hlen. cbn [snd] in Hlen.
  assert (Ht : t = snd (get_wikidata_info rt wikidata_id)) by now rewrite Hrun.
  assert (Hi : fst (get_wikidata_info rt wikidata_id) = Ok (VDict d))
    by now rewrite Hrun.
  clear Hrun. unfold get_wikidata_info in Ht, Hi.
  destruct (truthy wikidata_id); cbn [negb] in Ht, Hi.
  - split; [|split; [discriminate|]].
    + revert Hi.
      match goal with
      | |- fst ?m = _ -> _ =>
          assert (Hr : returns (fun v => v = VDict [] \/ five_fields v) m)
      end.
      { apply returns_try; [|now left].
        apply returns_bind. intros resp.
        destruct (negb (status_code resp =? 200)); [apply returns_ret; now left|].
        apply returns_bind. intros body.
        apply returns_bind. intros entities.
        apply returns_bind. intros entity_data.
        apply returns_bind. intros claims.
        apply returns_bind. intros descriptions.
        apply returns_bind. intros en.
        apply returns_bind. intros desc.
        apply returns_bind. intros p571.
        apply returns_bind. intros p149.
        apply returns_bind_with with (Q := is_list);
          [apply extract_entity_labels_returns_list|].
        intros styles [ss ->].
        apply returns_bind. intros p17.
        apply returns_bind_with with (Q := is_list);
          [apply extract_entity_labels_returns_list|].
        intros country [cs ->].
        apply returns_bind. intros p856.
        apply returns_ret. right. now do 5 eexists. }
      intros Hi. exact (Hr _ Hi).
    + intros _. rewrite snd_try_except, bind_requests_get in Ht.
      destruct (http_get rt (entity_request wikidata_id)) as [resp|e].
      * cbn [snd] in Ht. eexists. split; [exact Ht|].
        subst t. cbn [length] in Hlen. lia.
      * exists []. split; [exact Ht | simpl; lia].
  - injection Hi as <-. split; [now left|]. split; [|discriminate].
    intros _. now split.
Qed.

(** ** The summary request *)

Lemma hex_digit_inj (n m : N) :
  (n < 16)%N -> (m < 16)%N -> hex_digit n = hex_digit m -> n = m.
Proof.
  unfold hex_digit. intros Hn Hm H. apply (f_equal N_of_ascii) in H.
  destruct (N.ltb_spec n 10), (N.ltb_spec m 10);
    rewrite !N_ascii_embedding in H by lia; lia.
Qed.

Lemma hex_digit_safe (n : N) : (n < 16)%N -> quote_safe (hex_digit n) = true.
Proof.
  intros Hn.
  assert (H : forallb (fun k => quote_safe (hex_digit (N.of_nat k))) (seq 0 16)
              = true) by reflexivity.
  rewrite forallb_forall in H. specialize (H (N.to_nat n)).
  rewrite Nnat.N2Nat.id in H. apply H, in_seq. lia.
Qed.

Lemma byte_of_hex_digits (c1 c2 : ascii) :
  hex_digit (N_of_ascii c1 / 16) = hex_digit (N_of_ascii c2 / 16) ->
  hex_digit (N_of_ascii c1 mod 16) = hex_digit (N_of_ascii c2 mod 16) ->
  c1 = c2.
Proof.
  intros Hq Hr.
  pose proof (N_ascii_bounded c1) as B1. pose proof (N_ascii_bounded c2) as B2.
  apply hex_digit_inj in Hq;
    [|apply N.Div0.div_lt_upper_bound; lia | apply N.Div0.div_lt_upper_bound; lia].
  apply hex_digit_inj in Hr; [|apply N.mod_lt; lia | apply N.mod_lt; lia].
  rewrite <- (ascii_N_embedding c1), <- (ascii_N_embedding c2). f_equal.
  rewrite (N.div_mod (N_of_ascii c1) 16), (N.div_mod (N_of_ascii c2) 16) by lia.
  now rewrite Hq, Hr.
Qed.

Lemma quote_inj : forall s1 s2, quote s1 = quote s2 -> s1 = s2.
Proof.
  induction s1 as [|c1 s1 IH]; intros [|c2 s2]; cbn [quote].
  - reflexivity.
  - destruct (quote_safe c2); discriminate.
  - destruct (quote_safe c1); discriminate.
  - destruct (quote_safe c1) eqn:E1, (quote_safe c2) eqn:E2.
    + intros [= -> H]. f_equal. now apply IH.
    + intros [= -> _]. discriminate E1.
    + intros [= <- _]. discriminate E2.
    + intros [= Hq Hr H]. f_equal; [now apply byte_of_hex_digits | now apply IH].
Qed.

Lemma quote_chars (s : string) (c : ascii) :
  In c (list_ascii_of_string (quote s)) -> quote_safe c = true \/ c = "%"%char.
Proof.
  induction s as [|a s IH]; cbn [quote]; [intros []|].
  pose proof (N_ascii_bounded a) as B.
  destruct (quote_safe a) eqn:E; simpl.
  - intros [<-|H]; [now left | now apply IH].
  - intros [<-|[<-|[<-|H]]]; [now right | left | left | now apply IH].
    + apply hex_digit_safe. apply N.Div0.div_lt_upper_bound. lia.
    + apply hex_digit_safe. apply N.mod_lt. lia.
Qed.

(** X17: the landmark name enters the summary URL percent-encoded: what
    follows the endpoint holds only letters, digits, [_.-~/] and [%], so a
    name cannot add a query or a fragment to the URL; and two different
    names never give the same request. *)
Theorem X17_names_are_escaped (name other : string) :
  name <> other ->
  summary_request name <> summary_request other
  /\ url (summary_request name)
     = "https://en.wikipedia.org/api/rest_v1/page/summary/" ++ quote name
  /\ forall c, In c (list_ascii_of_string (quote name)) ->
               quote_safe c = true \/ c = "%"%char.
Proof.
  intros Hne. split; [|split; [reflexivity | apply quote_chars]].
  intros H. apply Hne, quote_inj.
  apply (f_equal url) in H. unfold summary_request in H. cbn [url] in H.
  simpl in H. now injection H.
Qed.

Lemma X17_names_are_escaped_case :
  summary_request "Eiffel Tower?x=1" <> summary_request "Eiffel Tower"
  /\ url (summary_request "Eiffel Tower?x=1")
     = "https://en.wikipedia.org/api/rest_v1/page/summary/Eiffel%20Tower%3Fx%3D1".
Proof.
  destruct (@X17_names_are_escaped "Eiffel Tower?x=1" "Eiffel Tower")
    as (H1 & H2 & _).
  - discriminate.
  - split; [exact H1 | exact H2].
Defined.

(** ** The encyclopedia's part of the record *)

(** X18: the record's name is the detected landmark's, its significance
    is the summary's ["description"], and [references.wikipedia] is the
    summary's [content_urls.desktop.page]; a level of that path that is
    missing gives [None], not a fault. *)
Theorem X18_encyclopedia_fields (rt : runtime) (content : string)
    (landmark : EntityAnnotation) (rest : list EntityAnnotation)
    (summary : list (string * value)) (result : value) :
  landmark_detection rt content = Ok (landmark :: rest) ->
  wiki_data_of rt (description landmark) = VDict summary ->
  fst (analyze_image rt (Some content)) = Reply 200 result ->
  field result "name" = Some (VStr (description landmark))
  /\ field2 result "historical_context" "significance"
     = Some (looked_up (VDict summary) "description")
  /\ (dict_get summary "content_urls" = None ->
      field2 result "references" "wikipedia" = Some VNone)
  /\ (forall urls,
        dict_get summary "content_urls" = Some (VDict urls) ->
        (dict_get urls "desktop" = None ->
         field2 result "references" "wikipedia" = Some VNone)
        /\ forall desktop,
             dict_get urls "desktop" = Some (VDict desktop) ->
             field2 result "references" "wikipedia"
             = Some (looked_up (VDict desktop) "page")).
Proof.
  intros Hd Hw Hr.
  apply (analyze_image_inv _ _ Hd) in Hr.
  destruct (enrich_inv _ _ Hr) as (loc & _ & Hb). rewrite Hw in Hb.
  destruct (build_result_inv _ _ _ _ _ _ Hb)
    as (_ & _ & Hname & _ & _ & _ & Hsig & _).
  split; [exact Hname|]. split; [exact Hsig|].
  clear Hname Hsig. revert Hb. unfold build_result.
  destruct (description_of _ _); [|discriminate]. cbn [obind].
  destruct (py_get _ "inception_date" VNone); [|discriminate]. cbn [obind].
  destruct (py_get _ "architectural_styles" VNone); [|discriminate]. cbn [obind].
  destruct (py_get (VDict summary) "description" VNone); [|discriminate].
  cbn [obind].
  destruct (py_get _ "official_website" VNone); [|discriminate]. cbn [obind].
  cbn [py_get].
  destruct (dict_get summary "content_urls") as [cu|]; cbn [obind].
  - destruct cu as [| | | | | |urls]; try discriminate. cbn [py_get].
    intros Hb. split; [discriminate|]. intros urls' [= <-].
    revert Hb.
    destruct (dict_get urls "desktop") as [dk|]; cbn [obind].
    + destruct dk as [| | | | | |desktop]; try discriminate.
      unfold looked_up. cbn [py_get].
      destruct (dict_get desktop "page") eqn:Ep; cbn [obind or_default];
        (destruct (py_get loc "maps_link" VNone); [|discriminate]);
        intros [= <-]; (split; [discriminate|]);
        intros d [= <-]; now rewrite Ep.
    + cbn [py_get dict_get obind].
      destruct (py_get loc "maps_link" VNone); [|discriminate].
      intros [= <-]. split; [reflexivity | discriminate].
  - cbn [py_get dict_get obind].
    destruct (py_get loc "maps_link" VNone); [|discriminate].
    intros [= <-]. split; [reflexivity | discriminate].
Qed.

Lemma X18_encyclopedia_fields_eiffel :
  field Scenario.eiffel_record "name" = Some (VStr "Eiffel Tower")
  /\ field2 Scenario.eiffel_record "historical_context" "significance"
     = Some (VStr "Tower in Paris, France")
  /\ field2 Scenario.eiffel_record_wikipedia_down "references" "wikipedia"
     = Some VNone.
Proof.
  destruct (@X18_encyclopedia_fields Scenario.python_a "photo" Scenario.eiffel []
              [("title", VStr "Eiffel Tower");
               ("description", VStr "Tower in Paris, France");
               ("extract",
                VStr "The Eiffel Tower is a wrought-iron lattice tower.");
               ("wikibase_item", VStr "Q243");
               ("content_urls",
                VDict [("desktop",
                        VDict [("page",
                                VStr "https://en.wikipedia.org/wiki/Eiffel_Tower")])])]
              Scenario.eiffel_record eq_refl eq_refl eq_refl)
    as (H1 & H2 & _).
  destruct (@X18_encyclopedia_fields Scenario.wikipedia_down "photo"
              Scenario.eiffel [] [] Scenario.eiffel_record_wikipedia_down
              eq_refl eq_refl eq_refl)
    as (_ & _ & H3 & _).
  split; [exact H1|]. split; [exact H2 | now apply H3].
Defined.

(** * Label resolution and the entity, on every answer *)

(** ** Unresolved identifiers (C7) *)




(** ** The sequence of labels (C2) *)

Lemma map_VStr_inj (a b : list string) : map VStr a = map VStr b -> a = b.
Proof.
  revert b. induction a as [|x a IH]; intros [|y b]; simpl;
    try discriminate; [reflexivity|].
  intros [= -> Hab]. f_equal. now apply IH.
Qed.

(** The identifiers of a list of reference claims: distinct, non-empty,
    and exactly those the claims name. *)
Lemma entity_ids_of_claims (rt : runtime) (cs raw : list value) :
  set_iter_ok rt ->
  mapM claim_entity_id cs = Ok raw ->
  Forall str_or_none raw ->
  exists ss,
    entity_ids rt (VList cs) = Ok (map VStr ss)
    /\ NoDup ss
    /\ (forall s, In s ss <-> In (VStr s) raw /\ s <> EmptyString).
Proof.
  intros Hset Hraw Hall.
  destruct (Hset raw Hall) as [Hnd Hin].
  assert (Hall' : Forall str_or_none (set_iter rt raw)).
  { rewrite Forall_forall in *. intros v Hv. apply Hall. now apply Hin. }
  destruct (truthy_strings Hall') as (ss & Hf & Hss).
  exists ss. split; [|split].
  - unfold entity_ids. simpl. rewrite Hraw. simpl. unfold py_set.
    rewrite (str_or_none_hashable Hall). simpl. now rewrite Hf.
  - apply (NoDup_map_inv VStr). rewrite <- Hf. now apply NoDup_filter.
  - intros s. rewrite Hss, Hin. tauto.
Qed.



(** ** Round trips and order (C3) *)

(** C3, as stated, fails twice.  The entity fetch resolves the labels of
    each entity-valued property with a call of its own: for the Eiffel
    Tower, which has both architectural styles and a country, the
    requests are three, not two.  And the order of the labels is the
    iteration order of the set, which can depend on the order of
    insertion: where it does, the same two identifiers named in the two
    orders resolve to the two orders of the same labels. *)
Lemma C3_round_trips_and_order :
  snd (get_wikidata_info Scenario.python_a (VStr "Q243"))
  = [entity_request (VStr "Q243"); labels_request "Q1|Q2"; labels_request "Q142"]
  /\ length (snd (get_wikidata_info Scenario.python_a (VStr "Q243"))) <> 2%nat
  /\ set_iter_ok Scenario.python_a
  /\ mapM claim_entity_id Cases.pair_claims = Ok [VStr "Q1"; VStr "Q142"]
  /\ mapM claim_entity_id Cases.pair_claims_reversed = Ok [VStr "Q142"; VStr "Q1"]
  /\ (forall v, In v [VStr "Q1"; VStr "Q142"] <-> In v [VStr "Q142"; VStr "Q1"])
  /\ fst (extract_entity_labels Scenario.python_a (VList Cases.pair_claims))
     = Ok (VList [VStr "structural expressionism"; VStr "France"])
  /\ fst (extract_entity_labels Scenario.python_a
            (VList Cases.pair_claims_reversed))
     = Ok (VList [VStr "France"; VStr "structural expressionism"])
  /\ fst (extract_entity_labels Scenario.python_a (VList Cases.pair_claims))
     <> fst (extract_entity_labels Scenario.python_a
               (VList Cases.pair_claims_reversed)).
Proof.
  split; [reflexivity|]. split; [vm_compute; discriminate|].
  split; [exact python_a_set_iter_ok|].
  split; [reflexivity|]. split; [reflexivity|].
  split; [intros v; simpl; tauto|].
  split; [reflexivity|]. split; [reflexivity|].
  vm_compute. discriminate.
Qed.

(** C3, amended: for N >= 1 distinct referenced identifiers, one call of
    the label resolution makes exactly one follow-up request, whose [ids]
    are the identifiers joined with ["|"], and when that request is
    answered with status 200 and a JSON body whose ["entities"] is an
    object without a malformed entry, each label of the output sits at the
    position of its identifier in the request.  The entity fetch
    makes one such follow-up for each of the two entity-valued properties,
    so it takes at most three round trips (not exactly two).  Resolving
    the same set of identifiers a second time asks for a permutation of
    the same identifiers and, when both requests are answered with the
    same well-formed entries, yields a permutation of the same labels
    (not necessarily the same order). *)
Theorem C3_one_request_per_resolution (rt : runtime) (claims : value)
    (ss : list string) :
  truthy claims = true ->
  entity_ids rt claims = Ok (map VStr ss) ->
  ss <> [] ->
  let req := labels_request (String.concat "|" ss) in
  (exists out,
      extract_entity_labels rt claims = (Ok (VList out), [req])
      /\ forall items,
           labels_answer rt (String.concat "|" ss) items ->
           Forall well_shaped items ->
           exists labels,
             build_labels items [] = Ok labels
             /\ out = map (fun s => label_of labels (VStr s)) ss)
  /\ (forall wikidata_id, at_most 3 (get_wikidata_info rt wikidata_id))
  /\ (set_iter_ok rt ->
      forall cs cs' raw raw',
        claims = VList cs ->
        mapM claim_entity_id cs = Ok raw -> Forall str_or_none raw ->
        mapM claim_entity_id cs' = Ok raw' -> Forall str_or_none raw' ->
        (forall v, In v raw <-> In v raw') ->
        exists ss',
          entity_ids rt (VList cs') = Ok (map VStr ss')
          /\ Permutation ss ss'
          /\ snd (extract_entity_labels rt (VList cs'))
             = [labels_request (String.concat "|" ss')]
          /\ forall items,
               labels_answer rt (String.concat "|" ss) items ->
               labels_answer rt (String.concat "|" ss') items ->
               Forall well_shaped items ->
               exists labels,
                 build_labels items [] = Ok labels
                 /\ fst (extract_entity_labels rt claims)
                    = Ok (VList (map (fun s => label_of labels (VStr s)) ss))
                 /\ fst (extract_entity_labels rt (VList cs'))
                    = Ok (VList (map (fun s => label_of labels (VStr s)) ss'))
                 /\ Permutation (map (fun s => label_of labels (VStr s)) ss)
                                (map (fun s => label_of labels (VStr s)) ss')).
Proof.
  intros Ht Hids Hne req. split; [|split].
  - destruct (@extract_entity_labels_one_request rt claims ss Ht Hids Hne)
      as (out & Hrun).
    exists out. fold req in Hrun. split; [exact Hrun|].
    intros items Hans Hok.
    destruct (build_labels_succeeds Hok []) as [labels Hb].
    exists labels. split; [exact Hb|].
    rewrite (@extract_entity_labels_answered rt claims ss items labels
               Ht Hids Hne Hans Hb) in Hrun.
    injection Hrun as <-. now rewrite map_map.
  - apply get_wikidata_info_at_most_three.
  - intros Hset cs cs' raw raw' -> Hraw Hall Hraw' Hall' Hsame.
    destruct (@entity_ids_of_claims rt cs raw Hset Hraw Hall)
      as (ss0 & Hids0 & Hnd & Hin).
    rewrite Hids in Hids0. injection Hids0 as E. apply map_VStr_inj in E.
    subst ss0.
    destruct (@entity_ids_of_claims rt cs' raw' Hset Hraw' Hall')
      as (ss' & Hids' & Hnd' & Hin').
    assert (Hperm : Permutation ss ss').
    { apply NoDup_Permutation; [exact Hnd | exact Hnd' |].
      intros s. rewrite Hin, Hin', Hsame. tauto. }
    assert (Hne' : ss' <> []).
    { intros ->. apply Permutation_sym, Permutation_nil in Hperm. contradiction. }
    assert (Ht' : truthy (VList cs') = true).
    { destruct cs' as [|c cs']; [|reflexivity].
      simpl in Hraw'. injection Hraw' as <-.
      destruct ss' as [|s ss']; [contradiction|].
      destruct (proj1 (Hin' s) (or_introl eq_refl)) as [[] _]. }
    exists ss'. split; [exact Hids'|]. split; [exact Hperm|]. split.
    + destruct (@extract_entity_labels_one_request rt (VList cs') ss'
                  Ht' Hids' Hne') as (out & ->).
      reflexivity.
    + intros items Hans Hans' Hok.
      destruct (build_labels_succeeds Hok []) as [labels Hb].
      exists labels. split; [exact Hb|].
      rewrite (@extract_entity_labels_answered rt (VList cs) ss items labels
                 Ht Hids Hne Hans Hb).
      rewrite (@extract_entity_labels_answered rt (VList cs') ss' items labels
                 Ht' Hids' Hne' Hans' Hb).
      cbn [fst]. rewrite !map_map.
      split; [reflexivity|]. split; [reflexivity|].
      now apply Permutation_map.
Qed.

Lemma C3_one_request_per_resolution_eiffel :
  (exists out,
      extract_entity_labels Scenario.python_a (VList Cases.pair_claims)
      = (Ok (VList out), [labels_request "Q1|Q142"]))
  /\ exists ss',
       entity_ids Scenario.python_a (VList Cases.pair_claims_reversed)
       = Ok (map VStr ss')
       /\ Permutation ["Q1"; "Q142"] ss'
       /\ exists labels,
            fst (extract_entity_labels Scenario.python_a (VList Cases.pair_claims))
            = Ok (VList (map (fun s => label_of labels (VStr s)) ["Q1"; "Q142"]))
            /\ fst (extract_entity_labels Scenario.python_a
                      (VList Cases.pair_claims_reversed))
               = Ok (VList (map (fun s => label_of labels (VStr s)) ss')).
Proof.
  destruct (@C3_one_request_per_resolution Scenario.python_a
              (VList Cases.pair_claims) ["Q1"; "Q142"] eq_refl eq_refl)
    as ((out & Hrun & _) & _ & Hsame).
  - discriminate.
  - split; [now exists out|].
    destruct (Hsame python_a_set_iter_ok Cases.pair_claims
                Cases.pair_claims_reversed
                [VStr "Q1"; VStr "Q142"] [VStr "Q142"; VStr "Q1"])
      as (ss' & Hids' & Hperm & _ & Hlab).
    + reflexivity.
    + reflexivity.
    + repeat (constructor; [right; eexists; reflexivity|]). constructor.
    + reflexivity.
    + repeat (constructor; [right; eexists; reflexivity|]). constructor.
    + intros v. simpl. tauto.
    + exists ss'. split; [exact Hids'|]. split; [exact Hperm|].
      assert (E : ss' = ["Q142"; "Q1"]).
      { apply map_VStr_inj.
        assert (E0 : entity_ids Scenario.python_a
                       (VList Cases.pair_claims_reversed)
                     = Ok (map VStr ["Q142"; "Q1"])) by reflexivity.
        rewrite E0 in Hids'. now injection Hids' as <-. }
      subst ss'.
      destruct (Hlab Scenario.label_items) as (labels & _ & H1 & H2 & _).
      * eexists; eexists; eexists. repeat split; reflexivity.
      * eexists; eexists; eexists. repeat split; reflexivity.
      * repeat (constructor; [eexists; reflexivity|]). constructor.
      * exists labels. now split.
Defined.

(** ** The shape of the entity, field by field (C9) *)

Lemma extract_entity_labels_no_raise (rt : runtime) (claims : value) :
  lookups_succeed rt claims ->
  fst (extract_entity_labels rt claims) = Ok (resolved rt claims)
  /\ is_list (resolved rt claims).
Proof.
  intros Hl.
  assert (H : exists out, fst (extract_entity_labels rt claims) = Ok (VList out)).
  { unfold extract_entity_labels.
    destruct (truthy claims) eqn:Ht; cbn [negb]; [|now exists []].
    destruct Hl as [Hl|[ids Hids]]; [congruence|].
    rewrite Hids, bind_ok.
    destruct (negb (list_nonempty ids)); [now exists []|].
    match goal with
    | |- exists out, fst (try_except ?body _) = _ =>
        destruct (@try_except_total value is_list body (VList []))
          as (v & t & Hrun & out & ->)
    end.
    - repeat first
        [ apply returns_ret; eexists; reflexivity
        | apply returns_bind; intro
        | match goal with
          | |- returns _ (if ?b then _ else _) => destruct b
          end ].
    - now exists [].
    - rewrite Hrun. now exists out. }
  destruct H as [out H]. unfold resolved. rewrite H. split; [reflexivity|].
  now exists out.
Qed.

(** The entity of a fetch that is answered and on which nothing raises. *)
Lemma get_wikidata_info_complete (rt : runtime) (wikidata_id entity_data : value)
    (claims : list (string * value)) (desc : value) :
  truthy wikidata_id = true ->
  entity_fetched rt wikidata_id entity_data ->
  py_get entity_data "claims" (VDict []) = Ok (VDict claims) ->
  description_lookup entity_data = Ok desc ->
  lookups_succeed rt (claims_of claims "P149") ->
  lookups_succeed rt (claims_of claims "P17") ->
  fst (get_wikidata_info rt wikidata_id)
  = Ok (VDict [("description", desc);
               ("inception_date",
                extract_claim_value (claims_of claims "P571") false);
               ("architectural_styles", resolved rt (claims_of claims "P149"));
               ("country", resolved rt (claims_of claims "P17"));
               ("official_website",
                extract_claim_value (claims_of claims "P856") true)]).
Proof.
  intros Ht (resp & body & entities & Hget & Hst & Hjs & Hen & Hkey) Hcl Hdesc
         Hs Hc.
  destruct (extract_entity_labels_no_raise Hs) as [Hstyles _].
  destruct (extract_entity_labels_no_raise Hc) as [Hcountry _].
  unfold get_wikidata_info. rewrite Ht. cbn [negb].
  rewrite fst_try_except, bind_requests_get, Hget, Hst. cbn [fst Z.eqb Pos.eqb negb].
  rewrite Hjs, bind_ok, Hen, bind_ok, Hkey, bind_ok, Hcl, bind_ok.
  assert (Hp : forall p, py_get (VDict claims) p (VList []) = Ok (claims_of claims p)).
  { intros p. unfold claims_of. simpl. now destruct (dict_get claims p). }
  unfold description_lookup in Hdesc.
  destruct (py_get entity_data "descriptions" (VDict [])) as [ds|];
    [|discriminate]. cbn [obind] in Hdesc. rewrite bind_ok.
  destruct (py_get ds "en" (VDict [])) as [en|]; [|discriminate].
  cbn [obind] in Hdesc. rewrite bind_ok, Hdesc, bind_ok.
  rewrite !Hp, !bind_ok, fst_bind, Hstyles, bind_ok, fst_bind, Hcountry, bind_ok.
  reflexivity.
Qed.

(** C9, amended: when the entity request is answered and nothing raises
    on its payload (["claims"] is an object, the description can be looked
    up, and the identifiers of the style and country claims can be looked
    up), the entity has exactly its five fields: the description, the
    projected inception date, the resolved styles and countries (both
    sequences) and the website; a property without claims gives an empty
    sequence (architectural styles, country) or [None] (inception date,
    official website).  When the entity request fails (transport, status,
    or a body that is not JSON) the entity is the empty dict, with no
    fields, and the record's inception date, architectural styles and
    official website are [None].  When the label request of one property
    fails, that property is the empty sequence and the other four fields
    keep their values. *)
Theorem C9_entity_shape (rt : runtime) (wikidata_id : value) :
  truthy wikidata_id = true ->
  (forall entity_data claims desc,
      entity_fetched rt wikidata_id entity_data ->
      py_get entity_data "claims" (VDict []) = Ok (VDict claims) ->
      description_lookup entity_data = Ok desc ->
      lookups_succeed rt (claims_of claims "P149") ->
      lookups_succeed rt (claims_of claims "P17") ->
      let inception := extract_claim_value (claims_of claims "P571") false in
      let website := extract_claim_value (claims_of claims "P856") true in
      let styles := resolved rt (claims_of claims "P149") in
      let countries := resolved rt (claims_of claims "P17") in
      fst (get_wikidata_info rt wikidata_id)
      = Ok (VDict [("description", desc);
                   ("inception_date", inception);
                   ("architectural_styles", styles);
                   ("country", countries);
                   ("official_website", website)])
      /\ is_list styles /\ is_list countries
      /\ (no_claims claims "P571" -> inception = VNone)
      /\ (no_claims claims "P149" -> styles = VList [])
      /\ (no_claims claims "P17" -> countries = VList [])
      /\ (no_claims claims "P856" -> website = VNone)
      /\ (forall ss,
            truthy (claims_of claims "P149") = true ->
            entity_ids rt (claims_of claims "P149") = Ok (map VStr ss) ->
            ss <> [] ->
            request_fails rt (labels_request (String.concat "|" ss)) ->
            fst (get_wikidata_info rt wikidata_id)
            = Ok (VDict [("description", desc);
                         ("inception_date", inception);
                         ("architectural_styles", VList []);
                         ("country", countries);
                         ("official_website", website)]))
      /\ (forall ss,
            truthy (claims_of claims "P17") = true ->
            entity_ids rt (claims_of claims "P17") = Ok (map VStr ss) ->
            ss <> [] ->
            request_fails rt (labels_request (String.concat "|" ss)) ->
            fst (get_wikidata_info rt wikidata_id)
            = Ok (VDict [("description", desc);
                         ("inception_date", inception);
                         ("architectural_styles", styles);
                         ("country", VList []);
                         ("official_website", website)])))
  /\ (request_fails rt (entity_request wikidata_id) ->
      get_wikidata_info rt wikidata_id = (Ok (VDict []), [entity_request wikidata_id])
      /\ forall content landmark rest result,
           landmark_detection rt content = Ok (landmark :: rest) ->
           wikidata_id_of rt (description landmark) = wikidata_id ->
           fst (analyze_image rt (Some content)) = Reply 200 result ->
           field2 result "historical_context" "inception_date" = Some VNone
           /\ field2 result "historical_context" "architectural_styles" = Some VNone
           /\ field result "official_website" = Some VNone).
Proof.
  intros Ht. split.
  - intros entity_data claims desc Hf Hcl Hdesc Hs Hc inception website styles
           countries.
    pose proof (@get_wikidata_info_complete rt wikidata_id entity_data claims desc
                  Ht Hf Hcl Hdesc Hs Hc) as Hrun.
    fold inception website styles countries in Hrun.
    destruct (extract_entity_labels_no_raise Hs) as [_ Hls].
    destruct (extract_entity_labels_no_raise Hc) as [_ Hlc].
    split; [exact Hrun|]. split; [exact Hls|]. split; [exact Hlc|].
    split; [|split; [|split; [|split; [|split]]]].
    + intros H. unfold inception. now rewrite (no_claims_of H).
    + intros H. unfold styles. now rewrite (no_claims_of H).
    + intros H. unfold countries. now rewrite (no_claims_of H).
    + intros H. unfold website. now rewrite (no_claims_of H).
    + intros ss Htp Hids Hne Hfail. rewrite Hrun. do 5 f_equal.
      unfold styles, resolved.
      now rewrite (@extract_entity_labels_fails rt _ ss Htp Hids Hne Hfail).
    + intros ss Htp Hids Hne Hfail. rewrite Hrun. do 7 f_equal.
      unfold countries, resolved.
      now rewrite (@extract_entity_labels_fails rt _ ss Htp Hids Hne Hfail).
  - intros Hf. pose proof (@get_wikidata_info_fails rt wikidata_id Ht Hf) as Hrun.
    split; [exact Hrun|].
    intros content landmark rest result Hd Hid Hr.
    apply (analyze_image_inv _ _ Hd) in Hr.
    destruct (enrich_inv _ _ Hr) as (loc & _ & Hb).
    assert (Ei : wikidata_info_of rt (description landmark) = VDict []).
    { unfold wikidata_info_of. now rewrite Hid, Ht, Hrun. }
    rewrite Ei in Hb.
    destruct (build_result_inv _ _ _ _ _ _ Hb)
      as (_ & _ & _ & _ & H1 & H2 & _ & _ & H3 & _).
    now rewrite H1, H2, H3.
Qed.

Lemma C9_entity_shape_eiffel :
  fst (get_wikidata_info Scenario.python_a (VStr "Q0"))
  = Ok (VDict [("description", VStr EmptyString);
               ("inception_date", VNone);
               ("architectural_styles", VList []);
               ("country", VList []);
               ("official_website", VNone)])
  /\ fst (get_wikidata_info Cases.labels_down (VStr "Q243"))
     = Ok (VDict [("description", VStr "tower in Paris");
                  ("inception_date", VStr "1889-03-31");
                  ("architectural_styles", VList []);
                  ("country", VList []);
                  ("official_website", VStr "https://www.toureiffel.paris")])
  /\ get_wikidata_info Scenario.wikidata_down (VStr "Q243")
     = (Ok (VDict []), [entity_request (VStr "Q243")])
  /\ field2 Scenario.eiffel_record_wikidata_down
        "historical_context" "architectural_styles" = Some VNone.
Proof.
  split; [|split].
  - destruct (@C9_entity_shape Scenario.python_a (VStr "Q0") eq_refl)
      as (Hshape & _).
    destruct (Hshape (VDict []) [] (VStr EmptyString))
      as (Hrun & _ & _ & H1 & H2 & H3 & H4 & _).
    + eexists; eexists; eexists. repeat split; reflexivity.
    + reflexivity.
    + reflexivity.
    + now left.
    + now left.
    + rewrite Hrun, (H1 (or_introl eq_refl)), (H2 (or_introl eq_refl)),
        (H3 (or_introl eq_refl)), (H4 (or_introl eq_refl)).
      reflexivity.
  - destruct (@C9_entity_shape Cases.labels_down (VStr "Q243") eq_refl)
      as (Hshape & _).
    destruct (Hshape Cases.eiffel_entity_data Cases.eiffel_claims
                (VStr "tower in Paris"))
      as (_ & _ & _ & _ & _ & _ & _ & Hstyles & _).
    + eexists; eexists; eexists. repeat split; reflexivity.
    + reflexivity.
    + reflexivity.
    + right. now eexists.
    + right. now eexists.
    + rewrite (Hstyles ["Q1"; "Q2"]); [reflexivity | reflexivity | reflexivity
                                       | discriminate | left; discriminate].
  - destruct (@C9_entity_shape Scenario.wikidata_down (VStr "Q243") eq_refl)
      as (_ & Hfail).
    destruct Hfail as (Hrun & Hrec); [left; discriminate|].
    split; [exact Hrun|].
    exact (proj1 (proj2 (Hrec "photo" Scenario.eiffel []
                           Scenario.eiffel_record_wikidata_down
                           eq_refl eq_refl eq_refl))).
Defined.
